(** * Delivery route optimisation service: a shallow embedding

    The Python backend (models.py, distance_calculator.py, routing_engine.py,
    main.py) is embedded function by function.

    Conventions of the embedding:
    - Python [int] is [Z]; Python [float] is an exact rational ([Q]) extended
      with a positive infinity ([float('inf')]).  Rounding, the overflow of
      a float operation and the [OverflowError] of converting an [int]
      beyond the float range are not modelled: a theorem whose truth
      depends on them carries the bound it needs as a hypothesis.
    - Python [str] is [string], read as a sequence of ASCII characters.  The
      interpreter's limit on the digits of an [int]/[str] conversion is not
      modelled either; theorems about large numbers are stated within it.
    - A function that can raise returns [result A]; [try ... except] is a
      match on that result.
    - The geodesic distance (geopy), the OR-Tools search and the wall clock
      are external to the repository and are parameters of the embedding. *)

From Stdlib Require Import ZArith QArith Qabs Ascii String List Lia Bool Sorted.
From stdpp Require Import base list gmap strings.

Local Open Scope Z_scope.

(** ** Exceptions and results *)

(** The reason carried by the [HTTPException]s of main.py (all of status 400). *)
Inductive http_detail : Type :=
| NoDeliveryPoint
| InvalidPickupCoordinates (lat lng : Q)
| InvalidDeliveryCoordinates (address : string) (lat lng : Q).

Inductive exn : Type :=
| ValueError
| OverflowError
| IndexError
| TypeError
| HTTPException (status_code : Z) (detail : http_detail).

Inductive result (A : Type) : Type :=
| Ok (a : A)
| Raise (e : exn).
Arguments Ok {A} a.
Arguments Raise {A} e.

#[global] Instance result_ret : MRet result := fun A a => Ok a.
#[global] Instance result_bind : MBind result := fun A B k m =>
  match m with
  | Ok a => k a
  | Raise e => Raise e
  end.

Definition of_option {A : Type} (e : exn) (o : option A) : result A :=
  match o with
  | Some a => Ok a
  | None => Raise e
  end.

(** ** Python floats and dictionaries *)
Module PyFloat.

Inductive t : Type :=
| Finite (q : Q)
| Infinity.

Definition of_int (z : Z) : t := Finite (inject_Z z).

Definition add (x y : t) : t :=
  match x, y with
  | Finite a, Finite b => Finite (a + b)
  | _, _ => Infinity
  end.

(** [int(x)]: truncation towards zero; [OverflowError] on infinity. *)
Definition to_int (x : t) : result Z :=
  match x with
  | Finite q => Ok (Z.quot (Qnum q) (Zpos (Qden q)))
  | Infinity => Raise OverflowError
  end.

End PyFloat.

(** The values stored in the [Dict[str, Any]] fields of the responses.
    [VInternalError e] is the text "Internal server error: " followed by
    [str(e)]. *)
Inductive value : Type :=
| VStr (s : string)
| VInt (z : Z)
| VFloat (q : Q)
| VInternalError (e : exn).

(** A Python dict literal: keys in insertion order. *)
Definition dict : Type := list (string * value).

Fixpoint dict_get (d : dict) (k : string) : option value :=
  match d with
  | [] => None
  | (k', v) :: d' => if String.eqb k k' then Some v else dict_get d' k
  end.

(** ** Python string primitives used by the code *)
Module PyStr.

Definition colon : ascii := ":"%char.
Definition underscore : ascii := "_"%char.

(** [Py_ISSPACE]: space, and the control characters 9 to 13. *)
Definition is_space (c : ascii) : bool :=
  let n := N_of_ascii c in
  (N.eqb n 32 || (N.leb 9 n && N.leb n 13))%bool.

Definition is_digit (c : ascii) : bool :=
  let n := N_of_ascii c in (N.leb 48 n && N.leb n 57)%bool.

Definition digit_val (c : ascii) : Z := Z.of_N (N_of_ascii c) - 48.

Definition digit_char (d : Z) : ascii := ascii_of_N (Z.to_N (48 + d)).

(** [s.split(':')]: one more part than there are colons. *)
Fixpoint split_colon (s : string) : list string :=
  match s with
  | EmptyString => [EmptyString]
  | String c s' =>
      if Ascii.eqb c colon then EmptyString :: split_colon s'
      else match split_colon s' with
           | p :: ps => String c p :: ps
           | [] => [String c EmptyString]
           end
  end.

Fixpoint skip_spaces (s : string) : string :=
  match s with
  | String c s' => if is_space c then skip_spaces s' else s
  | EmptyString => EmptyString
  end.

(** The digit scan of [PyLong_FromString] in base 10: digits, with single
    underscores between them; stops at the first other character.
    [prev_us] tells that the previous character was an underscore. *)
Fixpoint scan_digits (prev_us : bool) (acc : Z) (s : string)
  : option (Z * string) :=
  match s with
  | EmptyString => if prev_us then None else Some (acc, EmptyString)
  | String c s' =>
      if is_digit c then scan_digits false (10 * acc + digit_val c) s'
      else if Ascii.eqb c underscore then
        if prev_us then None else scan_digits true acc s'
      else if prev_us then None else Some (acc, s)
  end.

(** After the sign: at least one digit first, then the scan, then only
    white space up to the end. *)
Definition parse_unsigned (s : string) : option Z :=
  match s with
  | String c _ =>
      if is_digit c then
        match scan_digits false 0 s with
        | Some (v, rest) =>
            match skip_spaces rest with
            | EmptyString => Some v
            | String _ _ => None
            end
        | None => None
        end
      else None
  | EmptyString => None
  end.

(** [int(s)] for a string of ASCII characters: [None] stands for
    [ValueError].  Digits and white space outside ASCII, and the
    interpreter's limit on the number of digits, are not modelled. *)
Definition int_of_str (s : string) : option Z :=
  match skip_spaces s with
  | String c s' =>
      if Ascii.eqb c "+" then parse_unsigned s'
      else if Ascii.eqb c "-" then option_map Z.opp (parse_unsigned s')
      else parse_unsigned (String c s')
  | EmptyString => parse_unsigned EmptyString
  end.

(** The value of a digit sequence read from the left, and the strings
    made of digits only; used to state what the scan computes. *)
Fixpoint horner (acc : Z) (s : string) : Z :=
  match s with
  | EmptyString => acc
  | String c s' => horner (10 * acc + digit_val c) s'
  end.

Fixpoint all_digits (s : string) : bool :=
  match s with
  | EmptyString => true
  | String c s' => (is_digit c && all_digits s')%bool
  end.

Fixpoint no_colon (s : string) : bool :=
  match s with
  | EmptyString => true
  | String c s' => (negb (Ascii.eqb c colon) && no_colon s')%bool
  end.

(** Decimal digits of a non-negative integer, most significant first,
    put in front of [acc]. *)
Fixpoint dec_fuel (fuel : nat) (n : Z) (acc : string) : string :=
  match fuel with
  | O => acc
  | S fuel' =>
      let acc' := String (digit_char (n mod 10)) acc in
      if n <? 10 then acc' else dec_fuel fuel' (n / 10) acc'
  end.

Definition dec (n : Z) : string :=
  dec_fuel (S (Z.to_nat (Z.log2 n))) n EmptyString.

(** [format(n, "02d")]: sign-aware zero padding to width 2.  The
    interpreter's limit on the number of digits is not modelled. *)
Definition format_02d (n : Z) : string :=
  if n <? 0 then String "-" (dec (- n))
  else
    let s := dec n in
    if (String.length s <? 2)%nat then String "0" s else s.

(** [needle in s] *)
Fixpoint contains (needle s : string) : bool :=
  (String.prefix needle s ||
   match s with
   | EmptyString => false
   | String _ s' => contains needle s'
   end)%bool.

End PyStr.

(** ** distance_calculator.py *)
Module DistanceCalculator.

(** The instance state set by [__init__]. *)
Record t : Type := { default_speed_kmh : Q }.

(** [geodesic(point1, point2).kilometers] of geopy, on points whose
    latitude lies within [-90, 90]: for any other latitude geopy raises
    [ValueError], which the parameter does not model.  /optimize-route
    lets no such point through ([validate_coordinates]). *)
Class Geodesic : Type := geodesic : Q * Q -> Q * Q -> Q.

Definition calculate_geodesic_distance `{Geodesic}
  (lat1 lng1 lat2 lng2 : Q) : Q :=
  geodesic (lat1, lng1) (lat2, lng2).

Definition calculate_travel_time
  (self : t) (distance_km : Q) (speed_kmh : option Q) : PyFloat.t :=
  let speed_kmh :=
    match speed_kmh with
    | None => default_speed_kmh self
    | Some v => v
    end in
  if Qle_bool speed_kmh 0 then PyFloat.Infinity
  else
    let time_hours := (distance_km / speed_kmh)%Q in
    PyFloat.Finite (time_hours * 60)%Q.

Definition create_distance_matrix `{Geodesic}
  (self : t) (points : list (Q * Q))
  : list (list Q) * list (list PyFloat.t) :=
  let distance_matrix :=
    imap (fun i '(lat1, lng1) =>
      imap (fun j '(lat2, lng2) =>
        if (i =? j)%nat then 0%Q
        else calculate_geodesic_distance lat1 lng1 lat2 lng2) points)
      points in
  let time_matrix :=
    imap (fun i '(lat1, lng1) =>
      imap (fun j '(lat2, lng2) =>
        if (i =? j)%nat then PyFloat.Finite 0
        else
          calculate_travel_time self
            (calculate_geodesic_distance lat1 lng1 lat2 lng2) None) points)
      points in
  (distance_matrix, time_matrix).

Definition validate_coordinates (lat lng : Q) : bool :=
  (Qle_bool (-90) lat && Qle_bool lat 90
   && Qle_bool (-180) lng && Qle_bool lng 180)%bool.

(** The loop of [calculate_route_metrics]: [i] is the index of the leg
    that starts at the head of [route_points]. *)
Fixpoint route_metrics_loop `{Geodesic} (self : t)
  (route_points : list (Q * Q)) (service_times : option (list Q)) (i : nat)
  (total_distance : Q) (total_time : PyFloat.t) : Q * PyFloat.t :=
  match route_points with
  | (lat1, lng1) :: ((lat2, lng2) :: _) as rest =>
      let distance := calculate_geodesic_distance lat1 lng1 lat2 lng2 in
      let travel_time := calculate_travel_time self distance None in
      let total_distance := (total_distance + distance)%Q in
      let total_time := PyFloat.add total_time travel_time in
      let total_time :=
        match service_times with
        | Some times =>
            if (negb (Nat.eqb (length times) 0)
                && Nat.ltb i (length times))%bool
            then
              match times !! i with
              | Some service => PyFloat.add total_time (PyFloat.Finite service)
              | None => total_time
              end
            else total_time
        | None => total_time
        end in
      route_metrics_loop self rest service_times (S i) total_distance
        total_time
  | _ => (total_distance, total_time)
  end.

Definition calculate_route_metrics `{Geodesic} (self : t)
  (route_points : list (Q * Q)) (service_times : option (list Q))
  : Q * PyFloat.t :=
  if Nat.ltb (length route_points) 2 then (0%Q, PyFloat.Finite 0)
  else
    route_metrics_loop self route_points service_times 0%nat 0%Q
      (PyFloat.Finite 0).

(** The body of the [try] block of [time_to_minutes]: unpacking anything
    but two parts, or a part that is not an integer literal, raises
    [ValueError]. *)
Definition time_to_minutes_try (time_str : string) : result Z :=
  match PyStr.split_colon time_str with
  | [h; m] =>
      hours ← of_option ValueError (PyStr.int_of_str h);
      minutes ← of_option ValueError (PyStr.int_of_str m);
      mret (hours * 60 + minutes)
  | _ => Raise ValueError
  end.

(** [try: ... except: return 0] *)
Definition time_to_minutes (time_str : string) : Z :=
  match time_to_minutes_try time_str with
  | Ok v => v
  | Raise _ => 0
  end.

Definition minutes_to_time (minutes : Z) : string :=
  let hours := minutes / 60 in
  let mins := minutes mod 60 in
  (PyStr.format_02d hours ++ String PyStr.colon (PyStr.format_02d mins))%string.

Definition is_time_window_valid
  (arrival_time_minutes : Z) (time_window_start time_window_end : string)
  : bool :=
  let start_minutes := time_to_minutes time_window_start in
  let end_minutes := time_to_minutes time_window_end in
  if end_minutes <? start_minutes then
    ((arrival_time_minutes >=? start_minutes)
     || (arrival_time_minutes <=? end_minutes))%bool
  else
    ((start_minutes <=? arrival_time_minutes)
     && (arrival_time_minutes <=? end_minutes))%bool.

End DistanceCalculator.

(** ** models.py and config.py *)

Inductive PriorityLevel : Type := HIGH | MEDIUM | LOW.

Definition priority_value (p : PriorityLevel) : Z :=
  match p with
  | HIGH => 1
  | MEDIUM => 2
  | LOW => 3
  end.

Inductive OptimizeBy : Type := DISTANCE | TIME | PRIORITY.

Definition optimize_by_value (o : OptimizeBy) : string :=
  match o with
  | DISTANCE => "distance"
  | TIME => "time"
  | PRIORITY => "priority"
  end.

Module TimeWindow.
Record t : Type := { start : string; end_ : string }.
End TimeWindow.

Module PickupLocation.
Record t : Type := {
  address : string;
  zipcode : string;
  lat : Q;
  lng : Q;
  start_time : string;
  end_time : string
}.
End PickupLocation.

Module Settings.
Record t : Type := {
  return_to_origin : bool;
  time_per_stop_minutes : Z;
  vehicle_speed_kmph : Q;
  optimize_by : OptimizeBy
}.
End Settings.

Module Delivery.
Record t : Type := {
  address : string;
  zipcode : string;
  lat : Q;
  lng : Q;
  priority : PriorityLevel;
  time_window : TimeWindow.t
}.
End Delivery.

Module RoutingRequest.
Record t : Type := {
  pickup : PickupLocation.t;
  settings : Settings.t;
  deliveries : list Delivery.t
}.
End RoutingRequest.

Module RouteStop.
Record t : Type := {
  stop : string;
  zipcode : string;
  arrival_time : string;
  departure_time : option string;
  address : option string;
  lat : option Q;
  lng : option Q;
  priority : option PriorityLevel
}.
End RouteStop.

Module RoutingResponse.
Record t : Type := {
  route : list RouteStop.t;
  total_distance_km : Q;
  total_time_minutes : Z;
  is_feasible : bool;
  skipped_deliveries : list dict;
  optimization_metrics : dict
}.
End RoutingResponse.

Module DistanceMatrixRequest.
Record t : Type := { points : list (gmap string Q) }.
End DistanceMatrixRequest.

Module DistanceMatrixResponse.
Record t : Type := {
  distances : list (list Q);
  times : list (list PyFloat.t);
  points : list (gmap string Q)
}.
End DistanceMatrixResponse.

Module RoutingConfig.
Record t : Type := {
  max_travel_time_hours : Q;
  default_speed_kmh : Q;
  buffer_time_minutes : Q;
  max_route_distance_km : Q;
  default_service_time_minutes : Q
}.
End RoutingConfig.

Module PriorityConfig.
Record t : Type := {
  high_priority_weight : Q;
  medium_priority_weight : Q;
  low_priority_weight : Q;
  penalty_for_missing_high_priority : Q
}.
End PriorityConfig.

(** ** The OR-Tools search and the clock *)

(** What the code reads off a solution: starting at [routing.Start(0)] and
    following [NextVar] until [routing.IsEnd], the nodes of the indices met
    before the end index.  The end index of the single vehicle maps to the
    depot, node 0 ([RoutingIndexManager(num_locations, 1, 0)]). *)
Record Solution : Type := { visits : list nat }.

(** [routing.SolveWithParameters] on a model of [num_locations] nodes whose
    arc cost is the registered callback; [None] when no solution is found.
    [elapsed] is the reading [time.time() - start_time]. *)
Class Solver : Type := {
  solve_with_parameters :
    nat -> (nat -> nat -> result Z) -> option Solution;
  elapsed : Q
}.

(** ** routing_engine.py *)
Module RoutingEngine.

Record t : Type := {
  routing_config : RoutingConfig.t;
  priority_config : PriorityConfig.t;
  distance_calculator : DistanceCalculator.t
}.

(** [__init__] *)
Definition init (rc : RoutingConfig.t) (pc : PriorityConfig.t) : t :=
  {| routing_config := rc;
     priority_config := pc;
     distance_calculator :=
       {| DistanceCalculator.default_speed_kmh :=
            RoutingConfig.default_speed_kmh rc |} |}.

Section Methods.
Context `{DistanceCalculator.Geodesic} `{Solver}.
Variable self : t.

Definition _prepare_optimization_data
  (pickup : PickupLocation.t) (deliveries : list Delivery.t)
  (settings : Settings.t)
  : list (Q * Q) * list (list Q) * list (list PyFloat.t)
    * list Z * list (string * string) :=
  let points :=
    (PickupLocation.lat pickup, PickupLocation.lng pickup)
    :: map (fun d => (Delivery.lat d, Delivery.lng d)) deliveries in
  let priorities :=
    0 :: map (fun d => priority_value (Delivery.priority d)) deliveries in
  let time_windows :=
    (PickupLocation.start_time pickup, PickupLocation.end_time pickup)
    :: map (fun d => (TimeWindow.start (Delivery.time_window d),
                      TimeWindow.end_ (Delivery.time_window d)))
         deliveries in
  let '(distance_matrix, time_matrix) :=
    DistanceCalculator.create_distance_matrix
      (distance_calculator self) points in
  (points, distance_matrix, time_matrix, priorities, time_windows).

(** The arc cost registered with the routing model. *)
Definition distance_callback
  (distance_matrix : list (list Q)) (from_node to_node : nat) : result Z :=
  row ← of_option IndexError (distance_matrix !! from_node);
  d ← of_option IndexError (row !! to_node);
  PyFloat.to_int (PyFloat.Finite (d * 1000)).

(** [_add_priority_constraints] is [pass]; the time matrix, the
    priorities, the time windows and the settings do not reach the
    routing model. *)
Definition _solve_routing_problem
  (points : list (Q * Q)) (distance_matrix : list (list Q))
  (time_matrix : list (list PyFloat.t)) (priorities : list Z)
  (time_windows : list (string * string)) (settings : Settings.t)
  : option Solution :=
  let num_locations := length points in
  solve_with_parameters num_locations (distance_callback distance_matrix).

Definition pickup_stop (pickup : PickupLocation.t) : RouteStop.t :=
  {| RouteStop.stop := PickupLocation.address pickup;
     RouteStop.zipcode := PickupLocation.zipcode pickup;
     RouteStop.arrival_time := PickupLocation.start_time pickup;
     RouteStop.departure_time := Some (PickupLocation.start_time pickup);
     RouteStop.address := Some (PickupLocation.address pickup);
     RouteStop.lat := Some (PickupLocation.lat pickup);
     RouteStop.lng := Some (PickupLocation.lng pickup);
     RouteStop.priority := None |}.

Definition return_stop (pickup : PickupLocation.t) (arrival_time : string)
  : RouteStop.t :=
  {| RouteStop.stop := (PickupLocation.address pickup ++ " (Return)")%string;
     RouteStop.zipcode := PickupLocation.zipcode pickup;
     RouteStop.arrival_time := arrival_time;
     RouteStop.departure_time := None;
     RouteStop.address := Some (PickupLocation.address pickup);
     RouteStop.lat := Some (PickupLocation.lat pickup);
     RouteStop.lng := Some (PickupLocation.lng pickup);
     RouteStop.priority := None |}.

Definition delivery_stop (delivery : Delivery.t)
  (arrival_time departure_time : string) : RouteStop.t :=
  {| RouteStop.stop := Delivery.address delivery;
     RouteStop.zipcode := Delivery.zipcode delivery;
     RouteStop.arrival_time := arrival_time;
     RouteStop.departure_time := Some departure_time;
     RouteStop.address := Some (Delivery.address delivery);
     RouteStop.lat := Some (Delivery.lat delivery);
     RouteStop.lng := Some (Delivery.lng delivery);
     RouteStop.priority := Some (Delivery.priority delivery) |}.

(** One turn of the [while not routing.IsEnd(index)] loop: from
    [from_node] to [to_node].  Returns the clock and the stop appended. *)
Definition extract_step
  (pickup : PickupLocation.t) (deliveries : list Delivery.t)
  (settings : Settings.t) (time_matrix : list (list PyFloat.t))
  (from_node to_node : nat) (current_time_minutes : PyFloat.t)
  : result (PyFloat.t * RouteStop.t) :=
  let service := Settings.time_per_stop_minutes settings in
  let lookup_travel_time :=
    row ← of_option IndexError (time_matrix !! from_node);
    of_option IndexError (row !! to_node) in
  current_time_minutes ←
    (if (from_node =? 0)%nat then
       travel_time ← lookup_travel_time;
       mret (PyFloat.add current_time_minutes travel_time)
     else
       let current_time_minutes :=
         PyFloat.add current_time_minutes (PyFloat.of_int service) in
       travel_time ← lookup_travel_time;
       mret (PyFloat.add current_time_minutes travel_time));
  arrival_minutes ← PyFloat.to_int current_time_minutes;
  let arrival_time := DistanceCalculator.minutes_to_time arrival_minutes in
  let departure_time :=
    DistanceCalculator.minutes_to_time (arrival_minutes + service) in
  if (to_node =? 0)%nat then
    mret (current_time_minutes, return_stop pickup arrival_time)
  else
    delivery ← of_option IndexError (deliveries !! (to_node - 1)%nat);
    mret (current_time_minutes,
          delivery_stop delivery arrival_time departure_time).

Fixpoint extract_loop
  (pickup : PickupLocation.t) (deliveries : list Delivery.t)
  (settings : Settings.t) (time_matrix : list (list PyFloat.t))
  (to_nodes : list nat) (from_node : nat)
  (current_time_minutes : PyFloat.t) (route_stops : list RouteStop.t)
  : result (list RouteStop.t) :=
  match to_nodes with
  | [] => mret route_stops
  | to_node :: rest =>
      '(current_time_minutes, stop) ←
        extract_step pickup deliveries settings time_matrix
          from_node to_node current_time_minutes;
      extract_loop pickup deliveries settings time_matrix rest to_node
        current_time_minutes (route_stops ++ [stop])
  end.

Definition _extract_route
  (solution : Solution) (pickup : PickupLocation.t)
  (deliveries : list Delivery.t) (settings : Settings.t)
  (time_matrix : list (list PyFloat.t)) : result (list RouteStop.t) :=
  let current_time_minutes :=
    PyFloat.of_int
      (DistanceCalculator.time_to_minutes
         (PickupLocation.start_time pickup)) in
  extract_loop pickup deliveries settings time_matrix
    (visits solution ++ [0%nat]) 0%nat current_time_minutes
    [pickup_stop pickup].

(** The geodesic distance between two consecutive stops.  Every stop the
    engine builds has both coordinates; for a stop without them, which
    geopy would take for the point (0, 0), the embedding raises. *)
Definition leg_distance (a b : RouteStop.t) : result Q :=
  from_lat ← of_option TypeError (RouteStop.lat a);
  from_lng ← of_option TypeError (RouteStop.lng a);
  to_lat ← of_option TypeError (RouteStop.lat b);
  to_lng ← of_option TypeError (RouteStop.lng b);
  mret (DistanceCalculator.calculate_geodesic_distance
          from_lat from_lng to_lat to_lng).

Fixpoint total_distance_loop (route_stops : list RouteStop.t)
  (total_distance : Q) : result Q :=
  match route_stops with
  | a :: (b :: _) as rest =>
      distance ← leg_distance a b;
      total_distance_loop rest (total_distance + distance)%Q
  | _ => mret total_distance
  end.

Definition _calculate_total_distance (route_stops : list RouteStop.t)
  (distance_matrix : list (list Q)) : result Q :=
  total_distance_loop route_stops 0%Q.

Fixpoint total_time_loop (route_stops : list RouteStop.t)
  (service_time_minutes : Z) (total_time : PyFloat.t)
  : result PyFloat.t :=
  match route_stops with
  | a :: (b :: later) as rest =>
      distance ← leg_distance a b;
      let travel_time :=
        DistanceCalculator.calculate_travel_time
          (distance_calculator self) distance None in
      let total_time := PyFloat.add total_time travel_time in
      let total_time :=
        if (match later with [] => false | _ :: _ => true end
            || negb (PyStr.contains "Return" (RouteStop.stop b)))%bool
        then PyFloat.add total_time (PyFloat.of_int service_time_minutes)
        else total_time in
      total_time_loop rest service_time_minutes total_time
  | _ => mret total_time
  end.

Definition _calculate_total_time (route_stops : list RouteStop.t)
  (time_matrix : list (list PyFloat.t)) (service_time_minutes : Z)
  : result Z :=
  total_time ←
    total_time_loop route_stops service_time_minutes (PyFloat.Finite 0);
  PyFloat.to_int total_time.

(** The address a stop contributes to [included_addresses], if any. *)
Definition included_address (stop : RouteStop.t) : option string :=
  match RouteStop.address stop with
  | Some a =>
      if (negb (String.eqb a "")
          && negb (PyStr.contains "Return" (RouteStop.stop stop)))%bool
      then Some a else None
  | None => None
  end.

Definition skipped_entry (reason : string) (delivery : Delivery.t) : dict :=
  [("address"%string, VStr (Delivery.address delivery));
   ("zipcode"%string, VStr (Delivery.zipcode delivery));
   ("priority"%string, VInt (priority_value (Delivery.priority delivery)));
   ("reason"%string, VStr reason)].

Definition _determine_skipped_deliveries
  (deliveries : list Delivery.t) (route_stops : list RouteStop.t)
  : list dict :=
  let included_addresses : gset string :=
    list_to_set (omap included_address route_stops) in
  omap (fun delivery =>
          if bool_decide (Delivery.address delivery ∉ included_addresses)
          then Some (skipped_entry "Not included in optimal route" delivery)
          else None)
       deliveries.

Definition _create_infeasible_response
  (pickup : PickupLocation.t) (deliveries : list Delivery.t)
  (processing_time : Q) : RoutingResponse.t :=
  {| RoutingResponse.route := [];
     RoutingResponse.total_distance_km := 0;
     RoutingResponse.total_time_minutes := 0;
     RoutingResponse.is_feasible := false;
     RoutingResponse.skipped_deliveries :=
       map (skipped_entry
              "Route infeasible - time constraints cannot be met")
           deliveries;
     RoutingResponse.optimization_metrics :=
       [("processing_time_seconds"%string, VFloat processing_time);
        ("error"%string, VStr "No feasible solution found")] |}.

Definition optimize_route (request : RoutingRequest.t)
  : result RoutingResponse.t :=
  let pickup := RoutingRequest.pickup request in
  let settings := RoutingRequest.settings request in
  let deliveries := RoutingRequest.deliveries request in
  let '(points, distance_matrix, time_matrix, priorities, time_windows) :=
    _prepare_optimization_data pickup deliveries settings in
  match _solve_routing_problem points distance_matrix time_matrix
          priorities time_windows settings with
  | Some solution =>
      route_stops ←
        _extract_route solution pickup deliveries settings time_matrix;
      total_distance ←
        _calculate_total_distance route_stops distance_matrix;
      total_time ←
        _calculate_total_time route_stops time_matrix
          (Settings.time_per_stop_minutes settings);
      let skipped_deliveries :=
        _determine_skipped_deliveries deliveries route_stops in
      let optimization_metrics :=
        [("processing_time_seconds"%string, VFloat elapsed);
         ("optimization_method"%string,
          VStr (optimize_by_value (Settings.optimize_by settings)));
         ("total_stops"%string, VInt (Z.of_nat (length route_stops)));
         ("skipped_stops"%string,
          VInt (Z.of_nat (length skipped_deliveries)))] in
      mret {| RoutingResponse.route := route_stops;
              RoutingResponse.total_distance_km := total_distance;
              RoutingResponse.total_time_minutes := total_time;
              RoutingResponse.is_feasible := true;
              RoutingResponse.skipped_deliveries := skipped_deliveries;
              RoutingResponse.optimization_metrics :=
                optimization_metrics |}
  | None =>
      mret (_create_infeasible_response pickup deliveries elapsed)
  end.

End Methods.
End RoutingEngine.

(** ** The other endpoints' errors and replies *)

(** [AttributeError: '<class>' object has no attribute '<name>'] *)
Inductive attribute_error : Type :=
| NoAttribute (class_name attribute : string).

(** The details of the [HTTPException]s of /calculate-distance-matrix. *)
Inductive matrix_detail : Type :=
| AtLeastTwoPointsRequired
| LatitudeAndLongitudeRequired
| InvalidCoordinates (lat lng : Q)
| InternalServerError (e : attribute_error).

(** What the [try] block of /calculate-distance-matrix raises. *)
Inductive matrix_raise : Type :=
| RaiseHTTP (status_code : Z) (detail : matrix_detail)
| RaiseAttribute (e : attribute_error).

(** The values of the dictionaries /generate-visualizations and
    /debug-route return; [JError e] is [str(e)]. *)
Inductive json : Type :=
| JBool (b : bool)
| JStr (s : string)
| JResponse (r : RoutingResponse.t)
| JLinks (links : list (string * string))
| JError (e : exn).

Definition reply : Type := list (string * json).

Fixpoint reply_get (r : reply) (k : string) : option json :=
  match r with
  | [] => None
  | (k', v) :: r' => if String.eqb k k' then Some v else reply_get r' k
  end.

(** ** main.py: the /optimize-route endpoint *)
Module Main.
Section Endpoint.
Context `{DistanceCalculator.Geodesic} `{Solver}.
Variables (routing_config : RoutingConfig.t)
          (priority_config : PriorityConfig.t).

Definition routing_engine : RoutingEngine.t :=
  RoutingEngine.init routing_config priority_config.

(** The checks made before the engine is called. *)
Definition validate_request (request : RoutingRequest.t) : result unit :=
  let pickup := RoutingRequest.pickup request in
  match RoutingRequest.deliveries request with
  | [] => Raise (HTTPException 400 NoDeliveryPoint)
  | _ :: _ =>
      if negb (DistanceCalculator.validate_coordinates
                 (PickupLocation.lat pickup) (PickupLocation.lng pickup))
      then Raise (HTTPException 400
                    (InvalidPickupCoordinates
                       (PickupLocation.lat pickup)
                       (PickupLocation.lng pickup)))
      else
        match
          find (fun d => negb (DistanceCalculator.validate_coordinates
                                 (Delivery.lat d) (Delivery.lng d)))
               (RoutingRequest.deliveries request)
        with
        | Some d =>
            Raise (HTTPException 400
                     (InvalidDeliveryCoordinates (Delivery.address d)
                        (Delivery.lat d) (Delivery.lng d)))
        | None => mret tt
        end
  end.

Definition error_response (e : exn) : RoutingResponse.t :=
  {| RoutingResponse.route := [];
     RoutingResponse.total_distance_km := 0;
     RoutingResponse.total_time_minutes := 0;
     RoutingResponse.is_feasible := false;
     RoutingResponse.skipped_deliveries :=
       [[("error"%string, VInternalError e)]];
     RoutingResponse.optimization_metrics := [] |}.

(** [except HTTPException: raise], [except Exception: return ...]. *)
Definition optimize_route (request : RoutingRequest.t)
  : result RoutingResponse.t :=
  match
    (_ ← validate_request request;
     RoutingEngine.optimize_route routing_engine request)
  with
  | Ok response => Ok response
  | Raise (HTTPException status_code detail) =>
      Raise (HTTPException status_code detail)
  | Raise e => Ok (error_response e)
  end.

(** *** /calculate-distance-matrix *)

(** The module-level [distance_calculator]. *)
Definition distance_calculator : DistanceCalculator.t :=
  {| DistanceCalculator.default_speed_kmh :=
       RoutingConfig.default_speed_kmh routing_config |}.

(** [for point in request.points]: both keys present, coordinates in
    range, or the first failure. *)
Fixpoint collect_coordinates (points : list (gmap string Q))
  (coordinates : list (Q * Q)) : matrix_raise + list (Q * Q) :=
  match points with
  | [] => inr coordinates
  | point :: rest =>
      match point !! "latitude"%string, point !! "longitude"%string with
      | Some lat, Some lng =>
          if negb (DistanceCalculator.validate_coordinates lat lng)
          then inl (RaiseHTTP 400 (InvalidCoordinates lat lng))
          else collect_coordinates rest (coordinates ++ [(lat, lng)])
      | _, _ => inl (RaiseHTTP 400 LatitudeAndLongitudeRequired)
      end
  end.

(** [request.use_geodesic]: models.py declares the single field [points],
    so reading this attribute raises [AttributeError]. *)
Definition use_geodesic (request : DistanceMatrixRequest.t)
  : attribute_error + bool :=
  inl (NoAttribute "DistanceMatrixRequest" "use_geodesic").

(** The [try] block. *)
Definition calculate_distance_matrix_try (request : DistanceMatrixRequest.t)
  : matrix_raise + DistanceMatrixResponse.t :=
  if Nat.ltb (length (DistanceMatrixRequest.points request)) 2
  then inl (RaiseHTTP 400 AtLeastTwoPointsRequired)
  else
    match collect_coordinates (DistanceMatrixRequest.points request) [] with
    | inl e => inl e
    | inr coordinates =>
        match use_geodesic request with
        | inl e => inl (RaiseAttribute e)
        | inr flag =>
            let '(distance_matrix, time_matrix) :=
              if flag
              then DistanceCalculator.create_distance_matrix
                     distance_calculator coordinates
              else DistanceCalculator.create_distance_matrix
                     distance_calculator coordinates in
            inr {| DistanceMatrixResponse.distances := distance_matrix;
                   DistanceMatrixResponse.times := time_matrix;
                   DistanceMatrixResponse.points :=
                     DistanceMatrixRequest.points request |}
        end
    end.

(** [except HTTPException: raise]; [except Exception as e: raise
    HTTPException(status_code=500, ...)].  [inl] is the raised
    [HTTPException]. *)
Definition calculate_distance_matrix (request : DistanceMatrixRequest.t)
  : (Z * matrix_detail) + DistanceMatrixResponse.t :=
  match calculate_distance_matrix_try request with
  | inr response => inr response
  | inl (RaiseHTTP status_code detail) => inl (status_code, detail)
  | inl (RaiseAttribute e) => inl (500, InternalServerError e)
  end.

(** *** /generate-visualizations and /debug-route

    [create_visualizations] and [print_route_debug_info] write files and
    log lines, catch every exception and return nothing: they leave the
    returned dictionaries as they are. *)

Definition visualization_links : list (string * string) :=
  [("interactive_map",
    "http://127.0.0.1:8000/visualizations/route_map.html");
   ("summary_chart",
    "http://127.0.0.1:8000/visualizations/route_summary.png");
   ("timeline",
    "http://127.0.0.1:8000/visualizations/route_timeline.png")]%string.

Definition generate_visualizations (request : RoutingRequest.t) : reply :=
  match RoutingEngine.optimize_route routing_engine request with
  | Ok result =>
      if RoutingResponse.is_feasible result then
        [("success", JBool true);
         ("route_result", JResponse result);
         ("visualizations", JLinks visualization_links);
         ("message",
          JStr ("Visualizations generated successfully. Open the HTML file "
                ++ "in your browser to view the interactive map."))]%string
      else
        [("success", JBool false);
         ("route_result", JResponse result);
         ("message",
          JStr "Route is not feasible. No visualizations generated.")]%string
  | Raise e =>
      [("success", JBool false); ("error_message", JError e)]%string
  end.

Definition debug_route (request : RoutingRequest.t) : reply :=
  match RoutingEngine.optimize_route routing_engine request with
  | Ok result =>
      [("success", JBool true);
       ("result", JResponse result);
       ("debug_info",
        JStr "Check console output for detailed debug information")]%string
  | Raise e =>
      [("success", JBool false); ("error_message", JError e)]%string
  end.

End Endpoint.
End Main.

(** ** visualization.py *)
Module RouteVisualizer.

(** The arrival times [create_route_timeline] plots, up to the plotting
    calls: nothing when the route is empty, else
    [hours, minutes = map(int, stop.arrival_time.split(':'))] for every
    stop, with no [except] around the conversion that returns a value.
    [create_route_summary_chart] converts the same way. *)
Definition timeline_times (response : RoutingResponse.t)
  : result (option (list Z)) :=
  match RoutingResponse.route response with
  | [] => Ok None
  | route =>
      times ← mapM (fun stop =>
                      DistanceCalculator.time_to_minutes_try
                        (RouteStop.arrival_time stop)) route;
      mret (Some times)
  end.

End RouteVisualizer.

(** ** The vocabulary of the specification *)
Module Spec.

(** A string "parses as two colon-separated integers": it is [a:b] with
    [int(a)] and [int(b)] both defined. *)
Definition parses_as_two_integers (s : string) : Prop :=
  exists a b h m,
    s = (a ++ String PyStr.colon b)%string
    /\ PyStr.int_of_str a = Some h /\ PyStr.int_of_str b = Some m.

(** Latitude within [-90, 90] and longitude within [-180, 180]. *)
Definition coordinates_in_range (lat lng : Q) : Prop :=
  (-90 <= lat)%Q /\ (lat <= 90)%Q /\ (-180 <= lng)%Q /\ (lng <= 180)%Q.

(** A request the endpoint rejects: no delivery, or a coordinate of the
    pickup or of a delivery out of range. *)
Definition invalid_request (request : RoutingRequest.t) : Prop :=
  RoutingRequest.deliveries request = []
  \/ ~ coordinates_in_range
        (PickupLocation.lat (RoutingRequest.pickup request))
        (PickupLocation.lng (RoutingRequest.pickup request))
  \/ Exists (fun d => ~ coordinates_in_range (Delivery.lat d) (Delivery.lng d))
       (RoutingRequest.deliveries request).

(** The time strings of a request. *)
Definition time_strings (request : RoutingRequest.t) : list string :=
  PickupLocation.start_time (RoutingRequest.pickup request)
  :: PickupLocation.end_time (RoutingRequest.pickup request)
  :: flat_map (fun d => [TimeWindow.start (Delivery.time_window d);
                         TimeWindow.end_ (Delivery.time_window d)])
       (RoutingRequest.deliveries request).

(** The skip reasons enumerated by the specification. *)
Definition enumerated_reasons : list string :=
  ["excluded_by_optimizer"; "time_window_unreachable"; "infeasible_route"]%string.

(** The two reasons the code writes. *)
Definition reason_not_included : string := "Not included in optimal route".
Definition reason_infeasible : string :=
  "Route infeasible - time constraints cannot be met".

(** The reason of a skipped-delivery entry, when it has one. *)
Definition reason_of (entry : dict) : option value := dict_get entry "reason".

(** The last stop of a route is the return to the pickup. *)
Definition ends_at_pickup (pickup : PickupLocation.t)
  (route : list RouteStop.t) : Prop :=
  exists before arrival_time,
    route = before ++ [RoutingEngine.return_stop pickup arrival_time].

(** The first stop of a route is the pickup. *)
Definition starts_at_pickup (pickup : PickupLocation.t)
  (route : list RouteStop.t) : Prop :=
  exists rest, route = RoutingEngine.pickup_stop pickup :: rest.



(** The time matrix built for a request. *)
Definition time_matrix_of `{DistanceCalculator.Geodesic}
  (self : RoutingEngine.t) (request : RoutingRequest.t)
  : list (list PyFloat.t) :=
  let '(_, _, time_matrix, _, _) :=
    RoutingEngine._prepare_optimization_data self
      (RoutingRequest.pickup request) (RoutingRequest.deliveries request)
      (RoutingRequest.settings request) in
  time_matrix.

(** Exceptions other than the endpoint's own rejection. *)
Definition internal_error (e : exn) : Prop :=
  match e with
  | HTTPException _ _ => False
  | _ => True
  end.

(** [m] raises, if it does, an exception satisfying [P]. *)
Definition raises_only {A : Type} (P : exn -> Prop) (m : result A) : Prop :=
  match m with
  | Ok _ => True
  | Raise e => P e
  end.

(** The pickup is the first stop, and the last stop is the return to the
    pickup exactly when [return_to_origin] is set. *)
Definition pickup_first_and_last_iff_return
  (request : RoutingRequest.t) (response : RoutingResponse.t) : Prop :=
  starts_at_pickup (RoutingRequest.pickup request)
    (RoutingResponse.route response)
  /\ (ends_at_pickup (RoutingRequest.pickup request)
        (RoutingResponse.route response)
      <-> Settings.return_to_origin (RoutingRequest.settings request)
          = true).

(** An infeasible result that lists every delivery of the request as
    skipped, with the given reason. *)
Definition all_skipped_as (reason : string)
  (request : RoutingRequest.t) (response : RoutingResponse.t) : Prop :=
  RoutingResponse.is_feasible response = false
  /\ RoutingResponse.skipped_deliveries response
     = map (RoutingEngine.skipped_entry reason)
         (RoutingRequest.deliveries request).


(** Some time string of the request does not parse. *)
Definition malformed_time (request : RoutingRequest.t) : Prop :=
  exists s, s ∈ time_strings request /\ ~ parses_as_two_integers s.

(** The same delivery with another time window, and the same request
    with other delivery windows. *)
Definition with_time_window (window : Delivery.t -> TimeWindow.t)
  (delivery : Delivery.t) : Delivery.t :=
  {| Delivery.address := Delivery.address delivery;
     Delivery.zipcode := Delivery.zipcode delivery;
     Delivery.lat := Delivery.lat delivery;
     Delivery.lng := Delivery.lng delivery;
     Delivery.priority := Delivery.priority delivery;
     Delivery.time_window := window delivery |}.

Definition with_time_windows (window : Delivery.t -> TimeWindow.t)
  (request : RoutingRequest.t) : RoutingRequest.t :=
  {| RoutingRequest.pickup := RoutingRequest.pickup request;
     RoutingRequest.settings := RoutingRequest.settings request;
     RoutingRequest.deliveries :=
       map (with_time_window window) (RoutingRequest.deliveries request) |}.

(** The same request with other values of [return_to_origin] and
    [vehicle_speed_kmph]. *)
Definition with_return_and_speed (return_to_origin : bool) (speed : Q)
  (settings : Settings.t) : Settings.t :=
  {| Settings.return_to_origin := return_to_origin;
     Settings.time_per_stop_minutes := Settings.time_per_stop_minutes settings;
     Settings.vehicle_speed_kmph := speed;
     Settings.optimize_by := Settings.optimize_by settings |}.

Definition with_settings (change : Settings.t -> Settings.t)
  (request : RoutingRequest.t) : RoutingRequest.t :=
  {| RoutingRequest.pickup := RoutingRequest.pickup request;
     RoutingRequest.settings := change (RoutingRequest.settings request);
     RoutingRequest.deliveries := RoutingRequest.deliveries request |}.

(** The solution the search returns for a request, if any. *)
Definition search_result `{DistanceCalculator.Geodesic} `{Solver}
  (self : RoutingEngine.t) (request : RoutingRequest.t) : option Solution :=
  let '(points, distance_matrix, time_matrix, priorities, time_windows) :=
    RoutingEngine._prepare_optimization_data self
      (RoutingRequest.pickup request) (RoutingRequest.deliveries request)
      (RoutingRequest.settings request) in
  RoutingEngine._solve_routing_problem points distance_matrix time_matrix
    priorities time_windows (RoutingRequest.settings request).

End Spec.

(** ** Concrete requests *)
Module Scenario.

(** A stand-in for the geodesic distance: 0 between equal points, 111 km
    per degree of latitude and of longitude otherwise. *)
Definition grid_geodesic : DistanceCalculator.Geodesic :=
  fun p q =>
    (111 * (Qabs (fst p - fst q) + Qabs (snd p - snd q)))%Q.

(** A search that finds the tour visiting the deliveries in input order;
    with one delivery it is the only tour. *)
Definition tour_solver : Solver :=
  {| solve_with_parameters :=
       fun num_locations _ =>
         Some {| visits := seq 1 (num_locations - 1) |};
     elapsed := 1 # 100 |}.

(** A search that finds nothing. *)
Definition failing_solver : Solver :=
  {| solve_with_parameters := fun _ _ => None; elapsed := 30 |}.

(** The defaults of config.py. *)
Definition routing_config : RoutingConfig.t :=
  {| RoutingConfig.max_travel_time_hours := 4;
     RoutingConfig.default_speed_kmh := 50;
     RoutingConfig.buffer_time_minutes := 15;
     RoutingConfig.max_route_distance_km := 200;
     RoutingConfig.default_service_time_minutes := 10 |}.

Definition priority_config : PriorityConfig.t :=
  {| PriorityConfig.high_priority_weight := 1000;
     PriorityConfig.medium_priority_weight := 100;
     PriorityConfig.low_priority_weight := 1;
     PriorityConfig.penalty_for_missing_high_priority := 10000 |}.

(** The same with a default speed of 0 km/h. *)
Definition stalled_config : RoutingConfig.t :=
  {| RoutingConfig.max_travel_time_hours := 4;
     RoutingConfig.default_speed_kmh := 0;
     RoutingConfig.buffer_time_minutes := 15;
     RoutingConfig.max_route_distance_km := 200;
     RoutingConfig.default_service_time_minutes := 10 |}.

(** The pickup of /example-data. *)
Definition warehouse : PickupLocation.t :=
  {| PickupLocation.address := "Warehouse, Mumbai";
     PickupLocation.zipcode := "400001";
     PickupLocation.lat := 18.9356;
     PickupLocation.lng := 72.8376;
     PickupLocation.start_time := "09:00";
     PickupLocation.end_time := "18:00" |}.

Definition settings (return_to_origin : bool) (speed : Q) : Settings.t :=
  {| Settings.return_to_origin := return_to_origin;
     Settings.time_per_stop_minutes := 10;
     Settings.vehicle_speed_kmph := speed;
     Settings.optimize_by := PRIORITY |}.

(** A client in the warehouse's building, to be served from 10:00 to
    13:00. *)
Definition client (address window_start : string) : Delivery.t :=
  {| Delivery.address := address;
     Delivery.zipcode := "400001";
     Delivery.lat := 18.9356;
     Delivery.lng := 72.8376;
     Delivery.priority := HIGH;
     Delivery.time_window :=
       {| TimeWindow.start := window_start; TimeWindow.end_ := "13:00" |} |}.

Definition request (return_to_origin : bool) (speed : Q)
  (deliveries : list Delivery.t) : RoutingRequest.t :=
  {| RoutingRequest.pickup := warehouse;
     RoutingRequest.settings := settings return_to_origin speed;
     RoutingRequest.deliveries := deliveries |}.

(** The endpoint with the stand-in geodesic. *)
Definition endpoint (solver : Solver) (config : RoutingConfig.t)
  : RoutingRequest.t -> result RoutingResponse.t :=
  @Main.optimize_route grid_geodesic solver config priority_config.

End Scenario.

(** ** Vocabulary for the behaviour of the remaining code *)
Module Behaviour.

(** The entry of a matrix at row [i] and column [j], if there is one. *)
Definition matrix_entry {A : Type} (matrix : list (list A)) (i j : nat)
  : option A :=
  matrix !! i ≫= fun row => row !! j.

(** A point of /calculate-distance-matrix with both keys and coordinates
    in range. *)
Definition well_formed_point (point : gmap string Q) : Prop :=
  exists lat lng,
    point !! "latitude"%string = Some lat
    /\ point !! "longitude"%string = Some lng
    /\ Spec.coordinates_in_range lat lng.

(** The minute a stop's arrival string stands for. *)
Definition arrival_minutes (stop : RouteStop.t) : Z :=
  DistanceCalculator.time_to_minutes (RouteStop.arrival_time stop).

(** An address that [_determine_skipped_deliveries] can match: not empty
    and without the substring "Return". *)
Definition matchable_address (address : string) : Prop :=
  address <> ""%string /\ PyStr.contains "Return" address = false.

(** The stop built for a visited node is the stop of the delivery at
    index [node - 1]. *)
Definition stop_of_delivery (deliveries : list Delivery.t) (node : nat)
  (stop : RouteStop.t) : Prop :=
  exists delivery arrival_time departure_time,
    deliveries !! (node - 1)%nat = Some delivery
    /\ stop = RoutingEngine.delivery_stop delivery arrival_time departure_time.

(** The points of a request: the pickup, then the deliveries. *)
Definition points_of (request : RoutingRequest.t) : list (Q * Q) :=
  (PickupLocation.lat (RoutingRequest.pickup request),
   PickupLocation.lng (RoutingRequest.pickup request))
  :: map (fun d => (Delivery.lat d, Delivery.lng d))
       (RoutingRequest.deliveries request).

(** The stop built for a node of the walk: the return to the pickup for
    node 0, the stop of a delivery otherwise. *)
Definition stop_of_node (pickup : PickupLocation.t)
  (deliveries : list Delivery.t) (node : nat) (stop : RouteStop.t) : Prop :=
  (node = 0%nat
   /\ exists arrival_time,
       stop = RoutingEngine.return_stop pickup arrival_time)
  \/ (node <> 0%nat /\ stop_of_delivery deliveries node stop).

(** The interpreter refuses to convert between [int] and [str] beyond a
    number of decimal digits that can be configured, but not below 640:
    literals and integers of at most 640 digits are converted under every
    setting. *)
Definition max_str_digits : nat := 640.

Definition within_str_digits (n : Z) : Prop :=
  Z.abs n < 10 ^ Z.of_nat max_str_digits.

(** The integers a float holds exactly: those up to 2^53 in absolute
    value.  [int + float] converts the integer to a float first. *)
Definition exact_as_float (n : Z) : Prop := - 2 ^ 53 <= n <= 2 ^ 53.

(** A float that is not negative. *)
Definition non_negative (x : PyFloat.t) : Prop :=
  match x with
  | PyFloat.Finite q => (0 <= q)%Q
  | PyFloat.Infinity => True
  end.

End Behaviour.

Example split_ex : PyStr.split_colon "09:30" = ["09"; "30"]%string.
Proof. reflexivity. Qed.
Example int_ex : PyStr.int_of_str " -1_0 " = Some (-10).
Proof. reflexivity. Qed.
Example int_ex2 : PyStr.int_of_str "1__0" = None.
Proof. reflexivity. Qed.
Example fmt_ex : DistanceCalculator.minutes_to_time 545 = "09:05"%string.
Proof. reflexivity. Qed.
Example fmt_ex2 : DistanceCalculator.minutes_to_time (-1) = "-1:59"%string.
Proof. reflexivity. Qed.
Example ttm_ex : DistanceCalculator.time_to_minutes "25:61" = 1561.
Proof. reflexivity. Qed.
Example ttm_ex2 : DistanceCalculator.time_to_minutes "9h30" = 0.
Proof. reflexivity. Qed.

(** ** Facts about the string primitives *)
Module PyStrFacts.
Import PyStr.

Lemma append_nil_l (a : string) : ("" ++ a)%string = a.
Proof. reflexivity. Qed.

Lemma append_cons (x : ascii) (a b : string) :
  (String x a ++ b)%string = String x (a ++ b).
Proof. reflexivity. Qed.

(** stdpp keeps [simpl] from unfolding the string append. *)
Ltac norm_app := rewrite ?append_cons, ?append_nil_l.

Lemma append_assoc (a b c : string) :
  ((a ++ b) ++ c = a ++ (b ++ c))%string.
Proof. induction a as [|x a IH]; norm_app; [reflexivity | now rewrite IH]. Qed.

Lemma append_nil_r (a : string) : (a ++ "")%string = a.
Proof. induction a as [|x a IH]; norm_app; [reflexivity | now rewrite IH]. Qed.

Lemma digit_char_facts (d : Z) :
  0 <= d < 10 ->
  is_digit (digit_char d) = true /\ digit_val (digit_char d) = d.
Proof.
  intros Hd.
  assert (d = 0 \/ d = 1 \/ d = 2 \/ d = 3 \/ d = 4 \/ d = 5 \/ d = 6
          \/ d = 7 \/ d = 8 \/ d = 9) as Hc by lia.
  repeat (destruct Hc as [-> | Hc]; [split; reflexivity |]).
  subst d. split; reflexivity.
Qed.

Lemma digit_not_special (c : ascii) :
  is_digit c = true ->
  is_space c = false /\ Ascii.eqb c colon = false
  /\ Ascii.eqb c "+" = false /\ Ascii.eqb c "-" = false
  /\ Ascii.eqb c underscore = false.
Proof.
  destruct c as [[] [] [] [] [] [] [] []]; cbv; intros; try discriminate;
    repeat split.
Qed.

Lemma all_digits_app (a b : string) :
  all_digits (a ++ b) = (all_digits a && all_digits b)%bool.
Proof.
  induction a as [|x a IH]; norm_app; simpl; [reflexivity|].
  rewrite IH. now rewrite andb_assoc.
Qed.

Lemma horner_app (a b : string) (acc : Z) :
  horner acc (a ++ b) = horner (horner acc a) b.
Proof.
  revert acc. induction a as [|x a IH]; intros acc; norm_app; simpl;
    [reflexivity | apply IH].
Qed.

Lemma all_digits_no_colon (s : string) :
  all_digits s = true -> no_colon s = true.
Proof.
  induction s as [|c s IH]; simpl; [reflexivity|].
  intros [Hc Hs]%andb_true_iff.
  destruct (digit_not_special c Hc) as (_ & -> & _). simpl. now apply IH.
Qed.

(** *** Printing *)

Lemma dec_fuel_app (fuel : nat) (n : Z) (acc : string) :
  dec_fuel fuel n acc = (dec_fuel fuel n "" ++ acc)%string.
Proof.
  revert n acc. induction fuel as [|fuel IH]; intros n acc; simpl;
    [reflexivity|].
  destruct (n <? 10); [reflexivity|].
  rewrite (IH _ (String _ acc)), (IH _ (String _ "")).
  now rewrite append_assoc.
Qed.

Lemma dec_fuel_spec (fuel : nat) (n : Z) :
  0 <= n < 2 ^ Z.of_nat fuel ->
  all_digits (dec_fuel fuel n "") = true
  /\ horner 0 (dec_fuel fuel n "") = n.
Proof.
  revert n. induction fuel as [|fuel IH]; intros n Hn.
  - simpl in *. split; [reflexivity | lia].
  - cbn [dec_fuel].
    assert (0 <= n mod 10 < 10) as Hm by (apply Z.mod_pos_bound; lia).
    destruct (digit_char_facts _ Hm) as [Hd Hv].
    destruct (Z.ltb_spec n 10) as [Hlt | Hge].
    + simpl. rewrite Hd, Hv. split; [reflexivity|].
      rewrite Z.mod_small by lia. lia.
    + rewrite dec_fuel_app.
      assert (0 <= n / 10 < 2 ^ Z.of_nat fuel) as Hq.
      { rewrite Nat2Z.inj_succ, Z.pow_succ_r in Hn by lia.
        split; [apply Z.div_pos; lia|].
        apply Z.div_lt_upper_bound; lia. }
      destruct (IH _ Hq) as [Ha Hh].
      rewrite all_digits_app, horner_app, Ha, Hh. simpl. rewrite Hd, Hv.
      split; [reflexivity|].
      pose proof (Z.div_mod n 10). lia.
Qed.

Lemma dec_spec (n : Z) :
  0 <= n ->
  all_digits (dec n) = true /\ horner 0 (dec n) = n
  /\ exists c s, dec n = String c s.
Proof.
  intros Hn. unfold dec.
  assert (0 <= n < 2 ^ Z.of_nat (S (Z.to_nat (Z.log2 n)))) as Hb.
  { split; [assumption|].
    rewrite Nat2Z.inj_succ, Z2Nat.id by apply Z.log2_nonneg.
    destruct (Z.eq_dec n 0) as [-> | Hnz]; [reflexivity|].
    apply Z.log2_spec. lia. }
  destruct (dec_fuel_spec _ _ Hb) as [Ha Hh]. repeat split; try assumption.
  cbn [dec_fuel]. destruct (n <? 10); [eauto|].
  rewrite dec_fuel_app.
  generalize (dec_fuel (Z.to_nat (Z.log2 n)) (n / 10) "").
  intros [|c s]; norm_app; eauto.
Qed.

(** *** Parsing what was printed *)

Lemma scan_digits_all_digits (s rest : string) (acc : Z) :
  all_digits s = true ->
  scan_digits false acc (s ++ rest) = scan_digits false (horner acc s) rest.
Proof.
  revert acc. induction s as [|c s IH]; intros acc; norm_app; simpl;
    [reflexivity|].
  intros [Hc Hs]%andb_true_iff. rewrite Hc. now apply IH.
Qed.

Lemma parse_unsigned_digits (c : ascii) (s : string) :
  all_digits (String c s) = true ->
  parse_unsigned (String c s) = Some (horner 0 (String c s)).
Proof.
  intros Hall. unfold parse_unsigned.
  pose proof Hall as [Hc _]%andb_true_iff. rewrite Hc.
  rewrite <- (append_nil_r (String c s)) at 1.
  rewrite scan_digits_all_digits by assumption. reflexivity.
Qed.

Lemma int_of_str_digits (c : ascii) (s : string) :
  all_digits (String c s) = true ->
  int_of_str (String c s) = Some (horner 0 (String c s)).
Proof.
  intros Hall. pose proof Hall as [Hc _]%andb_true_iff.
  destruct (digit_not_special c Hc) as (Hsp & _ & Hplus & Hminus & _).
  unfold int_of_str. cbn [skip_spaces]. rewrite Hsp, Hplus, Hminus.
  now apply parse_unsigned_digits.
Qed.

Lemma int_of_str_format_02d (n : Z) : int_of_str (format_02d n) = Some n.
Proof.
  unfold format_02d. destruct (Z.ltb_spec n 0) as [Hneg | Hpos].
  - destruct (dec_spec (- n)) as (Ha & Hh & c & s & Hs); [lia|].
    unfold int_of_str. cbn [skip_spaces].
    change (is_space "-") with false. cbv iota.
    change (Ascii.eqb "-" "+") with false.
    change (Ascii.eqb "-" "-") with true. cbv iota.
    rewrite Hs in *. rewrite parse_unsigned_digits, Hh by assumption.
    simpl. f_equal. lia.
  - destruct (dec_spec n Hpos) as (Ha & Hh & c & s & Hs).
    rewrite Hs in *.
    destruct (String.length (String c s) <? 2)%nat.
    + rewrite int_of_str_digits by (simpl in *; assumption).
      f_equal. rewrite <- Hh. reflexivity.
    + rewrite int_of_str_digits by assumption. now rewrite Hh.
Qed.

Lemma format_02d_no_colon (n : Z) : no_colon (format_02d n) = true.
Proof.
  unfold format_02d. destruct (Z.ltb_spec n 0) as [Hneg | Hpos].
  - destruct (dec_spec (- n)) as (Ha & _); [lia|].
    simpl. now apply all_digits_no_colon.
  - destruct (dec_spec n Hpos) as (Ha & _).
    destruct (_ <? 2)%nat; simpl; now apply all_digits_no_colon.
Qed.

(** *** Splitting *)

Lemma split_colon_no_colon (s : string) :
  no_colon s = true -> split_colon s = [s].
Proof.
  induction s as [|c s IH]; simpl; [reflexivity|].
  intros [Hc Hs]%andb_true_iff. apply negb_true_iff in Hc.
  now rewrite Hc, IH.
Qed.

Lemma split_colon_app (a b : string) :
  no_colon a = true ->
  split_colon (a ++ String colon b) = a :: split_colon b.
Proof.
  induction a as [|c a IH]; norm_app; simpl.
  - reflexivity.
  - intros [Hc Ha]%andb_true_iff. apply negb_true_iff in Hc.
    now rewrite Hc, IH.
Qed.

Lemma split_colon_nonempty (s : string) : split_colon s <> [].
Proof.
  destruct s as [|c s]; simpl; [discriminate|].
  destruct (Ascii.eqb c colon); [discriminate|].
  destruct (split_colon s); discriminate.
Qed.

Lemma split_colon_one (s p : string) : split_colon s = [p] -> s = p.
Proof.
  revert p. induction s as [|c s IH]; intros p; simpl; [congruence|].
  destruct (Ascii.eqb c colon).
  - intros Heq. injection Heq as _ Hs. now apply split_colon_nonempty in Hs.
  - destruct (split_colon s) as [|q qs] eqn:Hs;
      [now apply split_colon_nonempty in Hs|].
    intros Heq. injection Heq as <- ->. f_equal. now apply IH.
Qed.

Lemma split_colon_two (s a b : string) :
  split_colon s = [a; b] -> s = (a ++ String colon b)%string.
Proof.
  revert a. induction s as [|c s IH]; intros a; simpl; [discriminate|].
  destruct (Ascii.eqb_spec c colon) as [-> | Hne].
  - intros Heq. injection Heq as <- Hs.
    norm_app. f_equal. now apply split_colon_one.
  - destruct (split_colon s) as [|p ps] eqn:Hs; [discriminate|].
    intros Heq. injection Heq as <- ->.
    norm_app. f_equal. now apply IH.
Qed.

End PyStrFacts.

(** ** Facts about distance_calculator.py *)
Module DistanceCalculatorFacts.
Import PyStr PyStrFacts DistanceCalculator Spec.

Lemma space_not_colon (c : ascii) :
  is_space c = true -> Ascii.eqb c colon = false.
Proof.
  destruct c as [[] [] [] [] [] [] [] []]; cbv; intros; congruence.
Qed.

Lemma skip_spaces_no_colon (s : string) :
  no_colon (skip_spaces s) = true -> no_colon s = true.
Proof.
  induction s as [|c s IH]; simpl; [reflexivity|].
  destruct (is_space c) eqn:Hc; [|exact id].
  intros Hs. now rewrite (space_not_colon c Hc), IH.
Qed.

Lemma scan_digits_no_colon (s rest : string) (p : bool) (acc v : Z) :
  scan_digits p acc s = Some (v, rest) ->
  no_colon rest = true -> no_colon s = true.
Proof.
  revert p acc. induction s as [|c s IH]; intros p acc; simpl;
    [reflexivity|].
  destruct (is_digit c) eqn:Hd.
  - destruct (digit_not_special c Hd) as (_ & -> & _). simpl. apply IH.
  - destruct (Ascii.eqb_spec c underscore) as [-> | Hne].
    + destruct p; [discriminate|]. simpl. apply IH.
    + destruct p; [discriminate|].
      intros Heq Hrest. injection Heq as _ <-. exact Hrest.
Qed.

Lemma parse_unsigned_no_colon (s : string) (v : Z) :
  parse_unsigned s = Some v -> no_colon s = true.
Proof.
  unfold parse_unsigned. destruct s as [|c s]; [discriminate|].
  destruct (is_digit c); [|discriminate].
  destruct (scan_digits false 0 (String c s)) as [[w rest]|] eqn:Hscan;
    [|discriminate].
  destruct (skip_spaces rest) eqn:Hrest; [|discriminate].
  intros _. eapply scan_digits_no_colon; [exact Hscan|].
  apply skip_spaces_no_colon. now rewrite Hrest.
Qed.

Lemma int_of_str_no_colon (s : string) (v : Z) :
  int_of_str s = Some v -> no_colon s = true.
Proof.
  unfold int_of_str. intros Hint. apply skip_spaces_no_colon.
  destruct (skip_spaces s) as [|c r]; [discriminate|].
  destruct (Ascii.eqb_spec c "+") as [-> | Hplus].
  - simpl. eapply parse_unsigned_no_colon, Hint.
  - destruct (Ascii.eqb_spec c "-") as [-> | Hminus].
    + destruct (parse_unsigned r) eqn:Hr; [|discriminate].
      simpl. eapply parse_unsigned_no_colon, Hr.
    + eapply parse_unsigned_no_colon, Hint.
Qed.

(** The value of [time_to_minutes] on a string that parses. *)
Lemma time_to_minutes_parsed (a b : string) (h m : Z) :
  int_of_str a = Some h -> int_of_str b = Some m ->
  time_to_minutes_try (a ++ String colon b) = Ok (h * 60 + m)
  /\ time_to_minutes (a ++ String colon b) = h * 60 + m.
Proof.
  intros Ha Hb. unfold time_to_minutes, time_to_minutes_try.
  rewrite split_colon_app by (eapply int_of_str_no_colon, Ha).
  rewrite split_colon_no_colon by (eapply int_of_str_no_colon, Hb).
  rewrite Ha, Hb. split; reflexivity.
Qed.

(** In the embedding, which sets no limit on the digits of a conversion,
    the two conversions are inverse on every integer. *)
Lemma time_to_minutes_minutes_to_time (m : Z) :
  time_to_minutes (minutes_to_time m) = m.
Proof.
  unfold minutes_to_time.
  destruct (time_to_minutes_parsed
              (format_02d (m / 60)) (format_02d (m mod 60))
              (m / 60) (m mod 60)) as [_ ->];
    try apply int_of_str_format_02d.
  pose proof (Z.div_mod m 60). lia.
Qed.

Lemma format_02d_two_digits (n : Z) :
  0 <= n < 100 ->
  format_02d n
  = String (digit_char (n / 10)) (String (digit_char (n mod 10)) "").
Proof.
  intros Hn. unfold format_02d, dec.
  destruct (Z.ltb_spec n 0) as [? | _]; [lia|].
  cbn [dec_fuel].
  destruct (Z.ltb_spec n 10) as [Hlt | Hge].
  - rewrite (Z.div_small n 10) by lia. reflexivity.
  - assert (3 <= Z.log2 n) as Hlog.
    { change 3 with (Z.log2 8). apply Z.log2_le_mono. lia. }
    destruct (Z.to_nat (Z.log2 n)) as [|fuel] eqn:Hf; [lia|].
    cbn [dec_fuel].
    assert (0 <= n / 10 < 10) as Hq.
    { split; [apply Z.div_pos; lia | apply Z.div_lt_upper_bound; lia]. }
    destruct (Z.ltb_spec (n / 10) 10) as [_ | ?]; [|lia].
    rewrite (Z.mod_small (n / 10)) by lia. reflexivity.
Qed.

Lemma is_time_window_valid_cases
  (arrival : Z) (time_window_start time_window_end : string) :
  is_time_window_valid arrival time_window_start time_window_end
  = if time_to_minutes time_window_end <? time_to_minutes time_window_start
    then (time_to_minutes time_window_start <=? arrival)
         || (arrival <=? time_to_minutes time_window_end)
    else (time_to_minutes time_window_start <=? arrival)
         && (arrival <=? time_to_minutes time_window_end).
Proof.
  unfold is_time_window_valid.
  destruct (_ <? _); [|reflexivity].
  now rewrite Z.geb_leb.
Qed.

(** The predicate in terms of the minutes [time_to_minutes] reads off the
    two bounds, whatever the strings are. *)
Lemma is_time_window_valid_bounds
  (arrival : Z) (time_window_start time_window_end : string) :
  let s := time_to_minutes time_window_start in
  let e := time_to_minutes time_window_end in
  is_time_window_valid arrival time_window_start time_window_end = true
  <-> ((e < s /\ (arrival >= s \/ arrival <= e))
       \/ (~ e < s /\ s <= arrival <= e)).
Proof.
  intros s e. rewrite is_time_window_valid_cases. fold s e.
  destruct (Z.ltb_spec e s) as [Hw | Hn].
  - rewrite orb_true_iff, !Z.leb_le. lia.
  - rewrite andb_true_iff, !Z.leb_le. lia.
Qed.

(** C7.  For every arrival minute and every time window given by its
    start and end minutes of the day [s] and [e] (0 <= s, e < 1440), the
    window being passed as the two strings HH:MM of [s] and [e]:
    [is_time_window_valid] holds exactly when, if [e < s] (the window
    wraps midnight), the arrival is at least [s] or at most [e], and
    otherwise [s <= arrival <= e]. *)
Theorem is_time_window_valid_minutes_of_day (arrival s e : Z) :
  0 <= s < 1440 ->
  0 <= e < 1440 ->
  is_time_window_valid arrival (minutes_to_time s) (minutes_to_time e) = true
  <-> ((e < s /\ (arrival >= s \/ arrival <= e))
       \/ (~ e < s /\ s <= arrival <= e)).
Proof.
  intros _ _.
  rewrite is_time_window_valid_cases, !time_to_minutes_minutes_to_time.
  destruct (Z.ltb_spec e s) as [Hw | Hn].
  - rewrite orb_true_iff, !Z.leb_le. lia.
  - rewrite andb_true_iff, !Z.leb_le. lia.
Qed.

Lemma is_time_window_valid_minutes_of_day_witness :
  0 <= 1320 < 1440
  /\ 0 <= 360 < 1440
  /\ minutes_to_time 1320 = "22:00"%string
  /\ minutes_to_time 360 = "06:00"%string
  /\ (is_time_window_valid 60 (minutes_to_time 1320) (minutes_to_time 360)
      = true
      <-> ((360 < 1320 /\ (60 >= 1320 \/ 60 <= 360))
           \/ (~ 360 < 1320 /\ 1320 <= 60 <= 360))).
Proof.
  split; [lia|]. split; [lia|].
  split; [reflexivity|]. split; [reflexivity|].
  apply (is_time_window_valid_minutes_of_day 60 1320 360); lia.
Defined.

(** C8.  For every minute of the day [m] (0 <= m < 1440), [minutes_to_time]
    gives the five characters HH:MM of [m], and [time_to_minutes] of that
    string is [m] again. *)
Theorem time_to_minutes_roundtrip (m : Z) :
  0 <= m < 1440 ->
  minutes_to_time m
  = String (digit_char (m / 60 / 10)) (String (digit_char (m / 60 mod 10))
      (String colon
         (String (digit_char (m mod 60 / 10))
            (String (digit_char (m mod 60 mod 10)) ""))))
  /\ time_to_minutes (minutes_to_time m) = m.
Proof.
  intros Hm. split; [|apply time_to_minutes_minutes_to_time].
  unfold minutes_to_time.
  assert (0 <= m / 60 < 24) as Hh.
  { split; [apply Z.div_pos; lia | apply Z.div_lt_upper_bound; lia]. }
  assert (0 <= m mod 60 < 60) as Hmin by (apply Z.mod_pos_bound; lia).
  rewrite !format_02d_two_digits by lia. reflexivity.
Qed.

Lemma time_to_minutes_roundtrip_witness :
  0 <= 545 < 1440
  /\ minutes_to_time 545 = "09:05"%string
  /\ time_to_minutes (minutes_to_time 545) = 545.
Proof.
  split; [lia|]. apply (time_to_minutes_roundtrip 545). lia.
Defined.

(** C9.  [time_to_minutes] is total: whatever the [try] block does, a
    value comes back, the block's own or 0 when it raised; and on every
    string that does not parse as two colon-separated integers the value
    is 0, the block having raised. *)
Theorem time_to_minutes_never_raises (time_str : string) :
  ((exists v, time_to_minutes_try time_str = Ok v
              /\ time_to_minutes time_str = v)
   \/ (exists e, time_to_minutes_try time_str = Raise e
                 /\ time_to_minutes time_str = 0))
  /\ (~ parses_as_two_integers time_str ->
      (exists e, time_to_minutes_try time_str = Raise e)
      /\ time_to_minutes time_str = 0).
Proof.
  split.
  - unfold time_to_minutes.
    destruct (time_to_minutes_try time_str) as [v | e]; eauto.
  - intros Hnot. unfold time_to_minutes, time_to_minutes_try.
    destruct (split_colon time_str) as [|a [|b [|c ps]]] eqn:Hsplit;
      try (split; [eexists|]; reflexivity).
    apply split_colon_two in Hsplit.
    destruct (int_of_str a) as [h|] eqn:Ha;
      [|split; [eexists|]; reflexivity].
    destruct (int_of_str b) as [m|] eqn:Hb;
      [|split; [eexists|]; reflexivity].
    exfalso. apply Hnot. exists a, b, h, m. auto.
Qed.

Lemma not_parses_without_colon (s : string) :
  no_colon s = true -> ~ parses_as_two_integers s.
Proof.
  intros Hs (a & b & h & m & -> & _).
  clear h m. induction a as [|c a IH]; norm_app; simpl in Hs.
  - discriminate.
  - apply andb_true_iff in Hs as [_ Hs]. now apply IH.
Qed.

Lemma time_to_minutes_never_raises_witness :
  ~ parses_as_two_integers "9 o'clock"
  /\ (exists e, time_to_minutes_try "9 o'clock" = Raise e)
  /\ time_to_minutes "9 o'clock" = 0.
Proof.
  assert (~ parses_as_two_integers "9 o'clock") as Hnot
    by (apply not_parses_without_colon; reflexivity).
  split; [exact Hnot|].
  exact (proj2 (time_to_minutes_never_raises "9 o'clock") Hnot).
Defined.

End DistanceCalculatorFacts.

(** ** Facts about routing_engine.py *)
Module RoutingEngineFacts.
Import Spec.

Lemma raises_only_bind {A B : Type} (P : exn -> Prop)
  (m : result A) (k : A -> result B) :
  raises_only P m -> (forall a, raises_only P (k a)) ->
  raises_only P (m ≫= k).
Proof. destruct m as [a | e]; simpl; auto. Qed.

Lemma raises_only_of_option {A : Type} (P : exn -> Prop) (e : exn)
  (o : option A) : P e -> raises_only P (of_option e o).
Proof. destruct o; simpl; auto. Qed.

Lemma raises_only_to_int (x : PyFloat.t) :
  raises_only internal_error (PyFloat.to_int x).
Proof. destruct x; exact I. Qed.

Ltac raises :=
  repeat first
    [ exact I
    | apply raises_only_to_int
    | apply raises_only_of_option; exact I
    | apply raises_only_bind; [| intros ? ]
    | match goal with |- raises_only _ (if ?b then _ else _) => destruct b end
    | match goal with |- raises_only _ (let '(_, _) := ?p in _) =>
        destruct p end ].

Section Engine.
Context `{DistanceCalculator.Geodesic} `{Solver}.
Variable self : RoutingEngine.t.

Lemma extract_step_raises pickup deliveries settings time_matrix
  from_node to_node current :
  raises_only internal_error
    (RoutingEngine.extract_step pickup deliveries settings time_matrix
       from_node to_node current).
Proof. unfold RoutingEngine.extract_step. raises. Qed.

Lemma extract_loop_raises pickup deliveries settings time_matrix
  to_nodes from_node current route_stops :
  raises_only internal_error
    (RoutingEngine.extract_loop pickup deliveries settings time_matrix
       to_nodes from_node current route_stops).
Proof.
  revert from_node current route_stops.
  induction to_nodes as [|n rest IH]; intros; simpl; [exact I|].
  apply raises_only_bind; [apply extract_step_raises|].
  intros [c st]. apply IH.
Qed.

Lemma leg_distance_raises a b :
  raises_only internal_error (RoutingEngine.leg_distance a b).
Proof. unfold RoutingEngine.leg_distance. raises. Qed.

Lemma total_distance_loop_raises route_stops total :
  raises_only internal_error
    (RoutingEngine.total_distance_loop route_stops total).
Proof.
  revert total. induction route_stops as [|a [|b rest] IH]; intros;
    try exact I.
  cbn [RoutingEngine.total_distance_loop].
  apply raises_only_bind; [apply leg_distance_raises|]. intros d. apply IH.
Qed.

Lemma total_time_loop_raises route_stops service total :
  raises_only internal_error
    (RoutingEngine.total_time_loop self route_stops service total).
Proof.
  revert total. induction route_stops as [|a [|b rest] IH]; intros;
    try exact I.
  cbn [RoutingEngine.total_time_loop].
  apply raises_only_bind; [apply leg_distance_raises|]. intros d. apply IH.
Qed.

(** The engine's two outcomes, spelled out. *)
Lemma optimize_route_unfold (request : RoutingRequest.t) :
  RoutingEngine.optimize_route self request
  = let pickup := RoutingRequest.pickup request in
    let settings := RoutingRequest.settings request in
    let deliveries := RoutingRequest.deliveries request in
    match search_result self request with
    | Some solution =>
        route_stops ←
          RoutingEngine._extract_route solution pickup deliveries settings
            (time_matrix_of self request);
        total_distance ← RoutingEngine.total_distance_loop route_stops 0%Q;
        total_time ←
          RoutingEngine._calculate_total_time self route_stops
            (time_matrix_of self request)
            (Settings.time_per_stop_minutes settings);
        let skipped_deliveries :=
          RoutingEngine._determine_skipped_deliveries deliveries
            route_stops in
        mret {| RoutingResponse.route := route_stops;
                RoutingResponse.total_distance_km := total_distance;
                RoutingResponse.total_time_minutes := total_time;
                RoutingResponse.is_feasible := true;
                RoutingResponse.skipped_deliveries := skipped_deliveries;
                RoutingResponse.optimization_metrics :=
                  [("processing_time_seconds"%string, VFloat elapsed);
                   ("optimization_method"%string,
                    VStr (optimize_by_value
                            (Settings.optimize_by settings)));
                   ("total_stops"%string,
                    VInt (Z.of_nat (length route_stops)));
                   ("skipped_stops"%string,
                    VInt (Z.of_nat (length skipped_deliveries)))] |}
    | None =>
        mret (RoutingEngine._create_infeasible_response pickup deliveries
                elapsed)
    end.
Proof. reflexivity. Qed.

Lemma optimize_route_raises (request : RoutingRequest.t) :
  raises_only internal_error (RoutingEngine.optimize_route self request).
Proof.
  rewrite optimize_route_unfold. cbv zeta.
  destruct (search_result self request) as [solution|]; [|exact I].
  apply raises_only_bind; [apply extract_loop_raises|]. intros stops.
  apply raises_only_bind; [apply total_distance_loop_raises|]. intros d.
  apply raises_only_bind; [|intros; exact I].
  unfold RoutingEngine._calculate_total_time.
  apply raises_only_bind; [apply total_time_loop_raises|].
  intros t. apply raises_only_to_int.
Qed.

Lemma bind_ok_inv {A B : Type} (m : result A) (k : A -> result B) (b : B) :
  m ≫= k = Ok b -> exists a, m = Ok a /\ k a = Ok b.
Proof. destruct m as [a | e]; simpl; [eauto | discriminate]. Qed.

(** *** The walk along the solution *)

Lemma extract_step_inv pickup deliveries settings time_matrix
  from_node to_node current current' stop :
  RoutingEngine.extract_step pickup deliveries settings time_matrix
    from_node to_node current = Ok (current', stop) ->
  exists arrival_minutes,
    PyFloat.to_int current' = Ok arrival_minutes
    /\ ((to_node = 0%nat
         /\ stop = RoutingEngine.return_stop pickup
                     (DistanceCalculator.minutes_to_time arrival_minutes))
        \/ (to_node <> 0%nat
            /\ exists delivery,
                deliveries !! (to_node - 1)%nat = Some delivery
                /\ stop = RoutingEngine.delivery_stop delivery
                            (DistanceCalculator.minutes_to_time
                               arrival_minutes)
                            (DistanceCalculator.minutes_to_time
                               (arrival_minutes
                                + Settings.time_per_stop_minutes
                                    settings)))).
Proof.
  unfold RoutingEngine.extract_step.
  intros (c & _ & Hrest)%bind_ok_inv.
  apply bind_ok_inv in Hrest as (arrival & Hint & Hrest).
  destruct (Nat.eqb_spec to_node 0) as [-> | Hne].
  - injection Hrest as <- <-. exists arrival. split; [assumption|].
    now left.
  - apply bind_ok_inv in Hrest as (d & Hd & Hrest).
    injection Hrest as <- <-. exists arrival. split; [assumption|].
    right. split; [assumption|]. exists d. split; [|reflexivity].
    now destruct (deliveries !! (to_node - 1)%nat); simplify_eq/=.
Qed.

Lemma extract_loop_shape pickup deliveries settings time_matrix
  to_nodes from_node current route_stops stops :
  RoutingEngine.extract_loop pickup deliveries settings time_matrix
    to_nodes from_node current route_stops = Ok stops ->
  exists more,
    stops = route_stops ++ more
    /\ length more = length to_nodes
    /\ (forall before_end, to_nodes = before_end ++ [0%nat] ->
        ends_at_pickup pickup more).
Proof.
  revert from_node current route_stops.
  induction to_nodes as [|n rest IH]; intros from_node current acc; simpl.
  - intros [= <-]. exists []. rewrite app_nil_r.
    repeat split; intros [|? ?]; discriminate.
  - intros ([c stop] & Hstep & Hloop)%bind_ok_inv.
    apply IH in Hloop as (more & -> & Hlen & Hend).
    exists (stop :: more). rewrite <- app_assoc.
    split; [reflexivity|]. split; [simpl; congruence|].
    intros [|i before_end] Heq; simplify_eq/=.
    + apply extract_step_inv in Hstep as (t & _ & [[_ ->] | [? _]]);
        [|congruence].
      destruct more; [|discriminate]. eexists [], _. reflexivity.
    + destruct (Hend _ eq_refl) as (before & t & ->).
      now exists (stop :: before), t.
Qed.

(** A route read off a solution starts with the pickup stop and ends
    with the return to the pickup. *)
Lemma extract_route_shape solution pickup deliveries settings
  time_matrix stops :
  RoutingEngine._extract_route solution pickup deliveries settings
    time_matrix = Ok stops ->
  starts_at_pickup pickup stops
  /\ ends_at_pickup pickup stops
  /\ (2 <= length stops)%nat.
Proof.
  unfold RoutingEngine._extract_route.
  intros (more & -> & Hlen & Hend)%extract_loop_shape.
  split; [now exists more|].
  destruct (Hend _ eq_refl) as (before & t & ->).
  split.
  - now exists (RoutingEngine.pickup_stop pickup :: before), t.
  - simpl. rewrite length_app. simpl. lia.
Qed.

(** *** Times at a speed of zero or less *)

Lemma calculate_travel_time_stalled calc distance_km :
  (DistanceCalculator.default_speed_kmh calc <= 0)%Q ->
  DistanceCalculator.calculate_travel_time calc distance_km None
  = PyFloat.Infinity.
Proof.
  intros Hs%Qle_bool_iff. unfold DistanceCalculator.calculate_travel_time.
  now rewrite Hs.
Qed.

Lemma add_infinity_r (x : PyFloat.t) :
  PyFloat.add x PyFloat.Infinity = PyFloat.Infinity.
Proof. now destruct x. Qed.

Lemma total_time_loop_stalled route_stops service total t :
  (DistanceCalculator.default_speed_kmh
     (RoutingEngine.distance_calculator self) <= 0)%Q ->
  RoutingEngine.total_time_loop self route_stops service total = Ok t ->
  total = PyFloat.Infinity \/ (2 <= length route_stops)%nat ->
  t = PyFloat.Infinity.
Proof.
  intros Hspeed. revert total.
  induction route_stops as [|a [|b later] IH]; intros total.
  - intros [= <-] [? | ?]; [assumption | simpl in *; lia].
  - intros [= <-] [? | ?]; [assumption | simpl in *; lia].
  - cbn [RoutingEngine.total_time_loop].
    intros (d & _ & Hloop)%bind_ok_inv _.
    rewrite calculate_travel_time_stalled, add_infinity_r in Hloop
      by assumption.
    apply IH in Hloop; [assumption|]. left.
    now destruct (_ || _)%bool.
Qed.

(** *** The skipped deliveries *)

Lemma determine_skipped_elem deliveries route_stops entry :
  entry ∈ RoutingEngine._determine_skipped_deliveries deliveries route_stops
  <-> exists delivery,
        delivery ∈ deliveries
        /\ (forall stop, stop ∈ route_stops ->
             RoutingEngine.included_address stop
             <> Some (Delivery.address delivery))
        /\ entry = RoutingEngine.skipped_entry reason_not_included delivery.
Proof.
  unfold RoutingEngine._determine_skipped_deliveries.
  rewrite list_elem_of_omap. split.
  - intros (d & Hd & Hsome). exists d. split; [assumption|].
    case_bool_decide as Hnotin; [|discriminate].
    injection Hsome as <-. split; [|reflexivity].
    intros stop Hstop Hincl. apply Hnotin.
    apply elem_of_list_to_set, list_elem_of_omap. eauto.
  - intros (d & Hd & Hnone & ->). exists d. split; [assumption|].
    rewrite bool_decide_true; [reflexivity|].
    intros (stop & Hstop & Hincl)%elem_of_list_to_set%list_elem_of_omap.
    exact (Hnone stop Hstop Hincl).
Qed.

(** *** The outcomes of the engine *)

Lemma optimize_route_cases (request : RoutingRequest.t) :
  match search_result self request with
  | None =>
      RoutingEngine.optimize_route self request
      = Ok (RoutingEngine._create_infeasible_response
              (RoutingRequest.pickup request)
              (RoutingRequest.deliveries request) elapsed)
  | Some solution =>
      match RoutingEngine.optimize_route self request with
      | Ok response =>
          exists stops,
            RoutingEngine._extract_route solution
              (RoutingRequest.pickup request)
              (RoutingRequest.deliveries request)
              (RoutingRequest.settings request)
              (time_matrix_of self request) = Ok stops
            /\ RoutingResponse.route response = stops
            /\ RoutingResponse.is_feasible response = true
            /\ RoutingResponse.skipped_deliveries response
               = RoutingEngine._determine_skipped_deliveries
                   (RoutingRequest.deliveries request) stops
      | Raise e => internal_error e
      end
  end.
Proof.
  pose proof (optimize_route_raises request) as Hraise.
  rewrite optimize_route_unfold in *. cbv zeta in *.
  destruct (search_result self request) as [solution|]; [|reflexivity].
  destruct (_ ≫= _) as [response | e] eqn:Hrun; [|exact Hraise].
  apply bind_ok_inv in Hrun as (stops & Hstops & Hrun).
  apply bind_ok_inv in Hrun as (dist & _ & Hrun).
  apply bind_ok_inv in Hrun as (time & _ & Hrun).
  injection Hrun as <-. exists stops. auto.
Qed.

(** With a default speed of zero or less the engine raises whenever the
    search returns a solution. *)
Lemma optimize_route_stalled (request : RoutingRequest.t) solution :
  (DistanceCalculator.default_speed_kmh
     (RoutingEngine.distance_calculator self) <= 0)%Q ->
  search_result self request = Some solution ->
  exists e, RoutingEngine.optimize_route self request = Raise e
            /\ internal_error e.
Proof.
  intros Hspeed Hsol.
  pose proof (optimize_route_raises request) as Hraise.
  rewrite optimize_route_unfold in *. cbv zeta in *. rewrite Hsol in *.
  destruct (_ ≫= _) as [response | e] eqn:Hrun; [exfalso | eauto].
  apply bind_ok_inv in Hrun as (stops & Hstops & Hrun).
  apply bind_ok_inv in Hrun as (dist & _ & Hrun).
  apply bind_ok_inv in Hrun as (time & Htime & _).
  apply extract_route_shape in Hstops as (_ & _ & Hlen).
  unfold RoutingEngine._calculate_total_time in Htime.
  apply bind_ok_inv in Htime as (t & Hloop & Hint).
  apply total_time_loop_stalled in Hloop; [|assumption | now right].
  subst t. discriminate.
Qed.

(** *** The delivery windows play no part *)

Lemma bind_ext {A B : Type} (m : result A) (k k' : A -> result B) :
  (forall a, k a = k' a) -> m ≫= k = m ≫= k'.
Proof. intros Hk. destruct m as [a | e]; simpl; [apply Hk | reflexivity]. Qed.

Lemma extract_step_with_time_window window pickup deliveries settings
  time_matrix from_node to_node current :
  RoutingEngine.extract_step pickup (map (with_time_window window) deliveries)
    settings time_matrix from_node to_node current
  = RoutingEngine.extract_step pickup deliveries settings time_matrix
      from_node to_node current.
Proof.
  unfold RoutingEngine.extract_step.
  apply bind_ext; intros c. apply bind_ext; intros arrival.
  destruct (to_node =? 0)%nat; [reflexivity|].
  change (map (with_time_window window) deliveries)
    with (with_time_window window <$> deliveries).
  rewrite list_lookup_fmap.
  now destruct (deliveries !! (to_node - 1)%nat).
Qed.

Lemma extract_loop_with_time_window window pickup deliveries settings
  time_matrix to_nodes from_node current route_stops :
  RoutingEngine.extract_loop pickup (map (with_time_window window) deliveries)
    settings time_matrix to_nodes from_node current route_stops
  = RoutingEngine.extract_loop pickup deliveries settings time_matrix
      to_nodes from_node current route_stops.
Proof.
  revert from_node current route_stops.
  induction to_nodes as [|n rest IH]; intros; simpl; [reflexivity|].
  rewrite extract_step_with_time_window.
  destruct (RoutingEngine.extract_step _ _ _ _ _ _ _) as [[c stop] | e];
    [apply IH | reflexivity].
Qed.

Lemma determine_skipped_with_time_window window deliveries route_stops :
  RoutingEngine._determine_skipped_deliveries
    (map (with_time_window window) deliveries) route_stops
  = RoutingEngine._determine_skipped_deliveries deliveries route_stops.
Proof.
  unfold RoutingEngine._determine_skipped_deliveries.
  induction deliveries as [|d ds IH]; [reflexivity|].
  cbn [map omap list_omap]. now rewrite IH.
Qed.

(** The whole response is the same whatever the delivery windows are. *)
Lemma optimize_route_with_time_windows window (request : RoutingRequest.t) :
  RoutingEngine.optimize_route self (with_time_windows window request)
  = RoutingEngine.optimize_route self request.
Proof.
  rewrite !optimize_route_unfold. cbv zeta.
  assert (map (fun d => (Delivery.lat d, Delivery.lng d))
            (map (with_time_window window) (RoutingRequest.deliveries request))
          = map (fun d => (Delivery.lat d, Delivery.lng d))
              (RoutingRequest.deliveries request)) as Hpoints
    by (rewrite List.map_map; reflexivity).
  assert (search_result self (with_time_windows window request)
          = search_result self request) as ->.
  { unfold search_result, RoutingEngine._prepare_optimization_data,
      DistanceCalculator.create_distance_matrix, with_time_windows.
    cbn [RoutingRequest.pickup RoutingRequest.deliveries
         RoutingRequest.settings RoutingEngine._solve_routing_problem].
    now rewrite Hpoints. }
  assert (time_matrix_of self (with_time_windows window request)
          = time_matrix_of self request) as ->.
  { unfold time_matrix_of, RoutingEngine._prepare_optimization_data,
      DistanceCalculator.create_distance_matrix, with_time_windows.
    cbn [RoutingRequest.pickup RoutingRequest.deliveries
         RoutingRequest.settings].
    now rewrite Hpoints. }
  cbn [with_time_windows RoutingRequest.pickup RoutingRequest.deliveries
       RoutingRequest.settings].
  destruct (search_result self request) as [solution|].
  - unfold RoutingEngine._extract_route.
    rewrite extract_loop_with_time_window.
    destruct (RoutingEngine.extract_loop _ _ _ _ _ _ _ _) as [stops | e];
      [|reflexivity].
    cbn [mbind result_bind].
    now rewrite determine_skipped_with_time_window.
  - unfold RoutingEngine._create_infeasible_response.
    now rewrite List.map_map.
Qed.

(** *** Neither do [return_to_origin] and [vehicle_speed_kmph] *)

Lemma extract_loop_with_return_and_speed r v pickup deliveries settings
  time_matrix to_nodes from_node current route_stops :
  RoutingEngine.extract_loop pickup deliveries
    (with_return_and_speed r v settings) time_matrix to_nodes from_node
    current route_stops
  = RoutingEngine.extract_loop pickup deliveries settings time_matrix
      to_nodes from_node current route_stops.
Proof.
  revert from_node current route_stops.
  induction to_nodes as [|n rest IH]; intros; simpl; [reflexivity|].
  change (RoutingEngine.extract_step pickup deliveries
            (with_return_and_speed r v settings) time_matrix from_node n
            current)
    with (RoutingEngine.extract_step pickup deliveries settings time_matrix
            from_node n current).
  apply bind_ext. intros [c stop]. apply IH.
Qed.

(** The whole response is the same whatever these two settings are. *)
Lemma optimize_route_with_return_and_speed r v (request : RoutingRequest.t) :
  RoutingEngine.optimize_route self
    (with_settings (with_return_and_speed r v) request)
  = RoutingEngine.optimize_route self request.
Proof.
  rewrite !optimize_route_unfold. cbv zeta.
  change (search_result self
            (with_settings (with_return_and_speed r v) request))
    with (search_result self request).
  change (time_matrix_of self
            (with_settings (with_return_and_speed r v) request))
    with (time_matrix_of self request).
  cbn [with_settings with_return_and_speed RoutingRequest.pickup
       RoutingRequest.deliveries RoutingRequest.settings
       Settings.time_per_stop_minutes Settings.optimize_by].
  destruct (search_result self request) as [solution|]; [|reflexivity].
  unfold RoutingEngine._extract_route.
  change {| Settings.return_to_origin := r;
            Settings.time_per_stop_minutes :=
              Settings.time_per_stop_minutes (RoutingRequest.settings request);
            Settings.vehicle_speed_kmph := v;
            Settings.optimize_by :=
              Settings.optimize_by (RoutingRequest.settings request) |}
    with (with_return_and_speed r v (RoutingRequest.settings request)).
  now rewrite extract_loop_with_return_and_speed.
Qed.

End Engine.
End RoutingEngineFacts.

(** ** Facts about the endpoint *)
Module MainFacts.
Import Spec RoutingEngineFacts.

Lemma validate_coordinates_iff (lat lng : Q) :
  DistanceCalculator.validate_coordinates lat lng = true
  <-> coordinates_in_range lat lng.
Proof.
  unfold DistanceCalculator.validate_coordinates, coordinates_in_range.
  rewrite !andb_true_iff, !Qle_bool_iff. tauto.
Qed.

Lemma validate_coordinates_false (lat lng : Q) :
  DistanceCalculator.validate_coordinates lat lng = false
  <-> ~ coordinates_in_range lat lng.
Proof.
  rewrite <- validate_coordinates_iff.
  destruct (DistanceCalculator.validate_coordinates lat lng);
    split; congruence.
Qed.

(** The validation either rejects an invalid request with status 400 or
    lets a valid one through. *)
Lemma validate_request_spec (request : RoutingRequest.t) :
  (invalid_request request
   /\ exists detail,
       Main.validate_request request = Raise (HTTPException 400 detail))
  \/ (~ invalid_request request /\ Main.validate_request request = Ok tt).
Proof.
  unfold Main.validate_request, invalid_request.
  destruct (RoutingRequest.deliveries request) as [|d ds] eqn:Hds.
  { left. split; [now left | eauto]. }
  destruct (DistanceCalculator.validate_coordinates
              (PickupLocation.lat (RoutingRequest.pickup request))
              (PickupLocation.lng (RoutingRequest.pickup request)))
    eqn:Hpickup; cbn [negb].
  2:{ left. apply validate_coordinates_false in Hpickup.
      split; [right; now left | eauto]. }
  apply validate_coordinates_iff in Hpickup.
  destruct (List.find _ (d :: ds)) as [bad|] eqn:Hfind.
  - left. apply List.find_some in Hfind as [Hin Hbad].
    apply negb_true_iff, validate_coordinates_false in Hbad.
    split; [|eauto]. right; right. apply List.Exists_exists. eauto.
  - right. split; [|reflexivity].
    intros [Hnil | [Hp | Hex]]; [discriminate | tauto |].
    apply List.Exists_exists in Hex as (bad & Hin & Hbad).
    apply (List.find_none _ _ Hfind) in Hin.
    apply negb_false_iff, validate_coordinates_iff in Hin. tauto.
Qed.

Section Endpoint.
Context `{DistanceCalculator.Geodesic} `{Solver}.
Variables (routing_config : RoutingConfig.t)
          (priority_config : PriorityConfig.t).

#[local] Abbreviation engine :=
  (Main.routing_engine routing_config priority_config).

(** What the endpoint returns, by the outcome of the validation and of
    the engine. *)
Lemma optimize_route_spec (request : RoutingRequest.t) :
  match Main.validate_request request with
  | Raise e =>
      Main.optimize_route routing_config priority_config request = Raise e
  | Ok _ =>
      Main.optimize_route routing_config priority_config request
      = Ok match RoutingEngine.optimize_route engine request with
           | Ok response => response
           | Raise e => Main.error_response e
           end
  end.
Proof.
  unfold Main.optimize_route.
  destruct (validate_request_spec request) as [[_ [detail ->]] | [_ ->]];
    [reflexivity|].
  cbn [mbind result_bind].
  pose proof (optimize_route_raises engine request) as Hraise.
  destruct (RoutingEngine.optimize_route engine request) as [r | e];
    [reflexivity|].
  destruct e; simpl in Hraise; [reflexivity.. | contradiction].
Qed.

Lemma optimize_route_valid (request : RoutingRequest.t) :
  ~ invalid_request request ->
  Main.optimize_route routing_config priority_config request
  = Ok match RoutingEngine.optimize_route engine request with
       | Ok response => response
       | Raise e => Main.error_response e
       end.
Proof.
  intros Hvalid. pose proof (optimize_route_spec request) as Hspec.
  destruct (validate_request_spec request) as [[? _] | [_ Hok]];
    [contradiction|].
  now rewrite Hok in Hspec.
Qed.

Lemma optimize_route_ok_inv (request : RoutingRequest.t)
  (response : RoutingResponse.t) :
  Main.optimize_route routing_config priority_config request = Ok response ->
  ~ invalid_request request
  /\ response = match RoutingEngine.optimize_route engine request with
                | Ok response => response
                | Raise e => Main.error_response e
                end.
Proof.
  intros Hok. pose proof (optimize_route_spec request) as Hspec.
  destruct (validate_request_spec request)
    as [[_ [detail Hrej]] | [Hvalid Hpass]].
  - rewrite Hrej in Hspec. congruence.
  - rewrite Hpass in Hspec. split; [assumption | congruence].
Qed.

End Endpoint.

(** With an invalid request the rejection does not depend on the search. *)
Lemma optimize_route_invalid (geodesic : DistanceCalculator.Geodesic)
  (rc : RoutingConfig.t) (pc : PriorityConfig.t)
  (request : RoutingRequest.t) :
  invalid_request request ->
  exists detail, forall solver : Solver,
    @Main.optimize_route geodesic solver rc pc request
    = Raise (HTTPException 400 detail).
Proof.
  intros Hinvalid.
  destruct (validate_request_spec request) as [[_ [detail Hrej]] | [? _]];
    [|contradiction].
  exists detail. intros solver.
  pose proof (@optimize_route_spec geodesic solver rc pc request) as Hspec.
  now rewrite Hrej in Hspec.
Qed.

End MainFacts.

(** ** The properties of the specification *)
Module Properties.
Import Spec RoutingEngineFacts MainFacts.

(** *** Feasible results and time windows *)

(** C1.  The claim is that in a feasible result every delivery stop is
    reached within its time window.  Here the code is run on one client
    in the warehouse's building, to be served from 10:00 to 13:00, the
    day starting at 09:00: the result is feasible, and the client's stop
    has the arrival time 09:00 (minute 540), which
    [is_time_window_valid] places outside the window. *)
Theorem feasible_result_outside_time_window :
  exists response stop,
    Scenario.endpoint Scenario.tour_solver Scenario.routing_config
      (Scenario.request true 40 [Scenario.client "Client A" "10:00"])
    = Ok response
    /\ RoutingResponse.is_feasible response = true
    /\ RoutingResponse.route response !! 1%nat = Some stop
    /\ stop = RoutingEngine.delivery_stop
                (Scenario.client "Client A" "10:00")
                (DistanceCalculator.minutes_to_time 540)
                (DistanceCalculator.minutes_to_time 550)
    /\ DistanceCalculator.is_time_window_valid 540 "10:00" "13:00" = false.
Proof.
  eexists _, _.
  split; [vm_compute; reflexivity|].
  split; [reflexivity|].
  split; [reflexivity|].
  split; reflexivity.
Qed.

(** *** The pickup at both ends of the route *)

(** C2, as stated, fails twice: with [return_to_origin] unset the route
    still ends with the return to the pickup, and when the search finds
    nothing the route is empty, so the pickup is not its first stop. *)
Lemma pickup_first_and_last_iff_return_fails :
  (exists response,
     Scenario.endpoint Scenario.tour_solver Scenario.routing_config
       (Scenario.request false 40 [Scenario.client "Client A" "10:00"])
     = Ok response
     /\ ~ pickup_first_and_last_iff_return
          (Scenario.request false 40 [Scenario.client "Client A" "10:00"])
          response)
  /\ (exists response,
        Scenario.endpoint Scenario.failing_solver Scenario.routing_config
          (Scenario.request true 40 [Scenario.client "Client A" "10:00"])
        = Ok response
        /\ ~ pickup_first_and_last_iff_return
             (Scenario.request true 40 [Scenario.client "Client A" "10:00"])
             response).
Proof.
  split.
  - eexists. split; [vm_compute; reflexivity|].
    intros [_ [Hends _]].
    enough (false = true) by discriminate. apply Hends.
    eexists [_; _], _. reflexivity.
  - eexists. split; [vm_compute; reflexivity|].
    intros [[rest Hstart] _]. discriminate Hstart.
Qed.

(** C2, amended.  In every feasible result the pickup is the first stop
    of the route, and when [return_to_origin] is set the last stop is the
    return to the pickup. *)
Theorem feasible_route_starts_and_returns
  `{DistanceCalculator.Geodesic} `{Solver}
  (rc : RoutingConfig.t) (pc : PriorityConfig.t)
  (request : RoutingRequest.t) (response : RoutingResponse.t) :
  Main.optimize_route rc pc request = Ok response ->
  RoutingResponse.is_feasible response = true ->
  starts_at_pickup (RoutingRequest.pickup request)
    (RoutingResponse.route response)
  /\ (Settings.return_to_origin (RoutingRequest.settings request) = true ->
      ends_at_pickup (RoutingRequest.pickup request)
        (RoutingResponse.route response)).
Proof.
  intros [_ ->]%optimize_route_ok_inv Hfeasible.
  pose proof (optimize_route_cases (Main.routing_engine rc pc) request)
    as Hcases.
  destruct (search_result _ request) as [solution|].
  - destruct (RoutingEngine.optimize_route _ request) as [r | e];
      [|discriminate].
    destruct Hcases as (stops & Hstops & <- & _).
    apply extract_route_shape in Hstops as (Hstart & Hend & _). auto.
  - rewrite Hcases in Hfeasible. discriminate.
Qed.

Lemma feasible_route_starts_and_returns_witness :
  exists response,
    Scenario.endpoint Scenario.tour_solver Scenario.routing_config
      (Scenario.request true 40 [Scenario.client "Client A" "10:00"])
    = Ok response
    /\ RoutingResponse.is_feasible response = true
    /\ starts_at_pickup Scenario.warehouse (RoutingResponse.route response)
    /\ (true = true ->
        ends_at_pickup Scenario.warehouse (RoutingResponse.route response)).
Proof.
  eexists. split; [vm_compute; reflexivity|].
  split; [reflexivity|].
  apply (@feasible_route_starts_and_returns
           Scenario.grid_geodesic Scenario.tour_solver
           Scenario.routing_config Scenario.priority_config
           (Scenario.request true 40 [Scenario.client "Client A" "10:00"]));
    [vm_compute; reflexivity | reflexivity].
Defined.

(** *** A vehicle speed of zero *)

(** C3.  The claim is that a request with a vehicle speed of 0 has
    infinite travel times and gets an infeasible result in which every
    delivery is skipped with the reason "infeasible_route".  The code run
    on such a request: [calculate_travel_time] does give an infinite time
    when it is passed a speed of 0, but the engine never passes it the
    request's speed, so with the configured default speed of 50 km/h the
    result is feasible and nothing is skipped.  Only a default speed of 0
    makes the times infinite, and then the result is the internal-error
    response: its skipped list holds one error entry and names no delivery
    with the reason "infeasible_route". *)
Theorem zero_speed_not_all_skipped :
  (forall calculator distance_km,
     DistanceCalculator.calculate_travel_time calculator distance_km (Some 0%Q)
     = PyFloat.Infinity)
  /\ (exists response,
        Scenario.endpoint Scenario.tour_solver Scenario.routing_config
          (Scenario.request true 0 [Scenario.client "Client A" "10:00"])
        = Ok response
        /\ RoutingResponse.is_feasible response = true
        /\ RoutingResponse.skipped_deliveries response = []
        /\ ~ all_skipped_as "infeasible_route"
             (Scenario.request true 0 [Scenario.client "Client A" "10:00"])
             response)
  /\ (exists response,
        Scenario.endpoint Scenario.tour_solver Scenario.stalled_config
          (Scenario.request true 0 [Scenario.client "Client A" "10:00"])
        = Ok response
        /\ RoutingResponse.skipped_deliveries response
           = [[("error"%string, VInternalError OverflowError)]]
        /\ ~ all_skipped_as "infeasible_route"
             (Scenario.request true 0 [Scenario.client "Client A" "10:00"])
             response).
Proof.
  split; [reflexivity|]. split.
  - eexists. split; [vm_compute; reflexivity|].
    repeat split. intros [Hfeasible _]. discriminate Hfeasible.
  - eexists. split; [vm_compute; reflexivity|].
    split; [reflexivity|]. intros [_ Hskipped]. discriminate Hskipped.
Qed.

Lemma valid_scenario_request (return_to_origin : bool) (speed : Q)
  (address window_start : string) :
  ~ invalid_request
      (Scenario.request return_to_origin speed
         [Scenario.client address window_start]).
Proof.
  assert (coordinates_in_range 18.9356 72.8376) as Hrange
    by (repeat split; discriminate).
  intros [Hnil | [Hpickup | Hexists]].
  - discriminate Hnil.
  - now apply Hpickup.
  - apply List.Exists_exists in Hexists as (d & [<- | []] & Hd).
    now apply Hd.
Qed.

(** *** Rejected requests *)

(** C4, as stated, fails: a request whose delivery window starts at
    "9am", a string that does not parse, is not rejected. *)
Lemma malformed_time_not_rejected :
  malformed_time
    (Scenario.request true 40 [Scenario.client "Client A" "9am"])
  /\ exists response,
       Scenario.endpoint Scenario.tour_solver Scenario.routing_config
         (Scenario.request true 40 [Scenario.client "Client A" "9am"])
       = Ok response.
Proof.
  split.
  - exists "9am"%string. split.
    + unfold time_strings. simpl. set_solver.
    + apply DistanceCalculatorFacts.not_parses_without_colon. reflexivity.
  - eexists. vm_compute. reflexivity.
Qed.

(** C4, amended.  The endpoint rejects a request, with status 400,
    exactly when the delivery list is empty or a coordinate of the pickup
    or of a delivery is out of range; the rejection is the same whatever
    the search would do, and any other request gets a response.  Time
    strings play no part in it. *)
Theorem rejected_iff_invalid
  (geodesic : DistanceCalculator.Geodesic) (solver : Solver)
  (rc : RoutingConfig.t) (pc : PriorityConfig.t)
  (request : RoutingRequest.t) :
  (invalid_request request
   <-> exists e, @Main.optimize_route geodesic solver rc pc request = Raise e)
  /\ (invalid_request request
      <-> exists detail, forall solver' : Solver,
            @Main.optimize_route geodesic solver' rc pc request
            = Raise (HTTPException 400 detail))
  /\ (~ invalid_request request
      <-> exists response,
            @Main.optimize_route geodesic solver rc pc request = Ok response).
Proof.
  assert (invalid_request request \/ ~ invalid_request request) as Hdec.
  { destruct (validate_request_spec request) as [[? _] | [? _]]; auto. }
  pose proof (@optimize_route_invalid geodesic rc pc request) as Hrej.
  pose proof (@optimize_route_valid geodesic solver rc pc request) as Hok.
  repeat split.
  - intros (detail & Hd)%Hrej. eauto.
  - intros [e He]. destruct Hdec as [? | Hvalid]; [assumption|].
    rewrite Hok in He by assumption. discriminate.
  - exact Hrej.
  - intros [detail Hd]. destruct Hdec as [? | Hvalid]; [assumption|].
    specialize (Hd solver). rewrite Hok in Hd by assumption. discriminate.
  - intros Hvalid. rewrite Hok by assumption. eauto.
  - intros [response Hresp] (detail & Hd)%Hrej.
    rewrite Hd in Hresp. discriminate.
Qed.

Lemma rejected_iff_invalid_witness :
  (exists detail, forall solver' : Solver,
      Scenario.endpoint solver' Scenario.routing_config
        (Scenario.request true 40 [])
      = Raise (HTTPException 400 detail))
  /\ (exists response,
        Scenario.endpoint Scenario.tour_solver Scenario.routing_config
          (Scenario.request true 40 [Scenario.client "Client A" "9am"])
        = Ok response).
Proof.
  split.
  - apply (proj1 (proj1 (proj2 (rejected_iff_invalid
             Scenario.grid_geodesic Scenario.tour_solver
             Scenario.routing_config Scenario.priority_config
             (Scenario.request true 40 []))))).
    left. reflexivity.
  - apply (proj1 (proj2 (proj2 (rejected_iff_invalid
             Scenario.grid_geodesic Scenario.tour_solver
             Scenario.routing_config Scenario.priority_config
             (Scenario.request true 40
                [Scenario.client "Client A" "9am"]))))).
    apply valid_scenario_request.
Defined.

(** *** The reasons of skipped deliveries *)

Lemma reason_of_skipped_entry (reason : string) (delivery : Delivery.t) :
  reason_of (RoutingEngine.skipped_entry reason delivery)
  = Some (VStr reason).
Proof. reflexivity. Qed.

(** C5, as stated, fails: when the search finds nothing, the one
    delivery is skipped with a reason that is none of the three
    enumerated. *)
Lemma skip_reason_not_enumerated :
  exists response entry reason,
    Scenario.endpoint Scenario.failing_solver Scenario.routing_config
      (Scenario.request true 40 [Scenario.client "Client A" "10:00"])
    = Ok response
    /\ RoutingResponse.skipped_deliveries response = [entry]
    /\ reason_of entry = Some (VStr reason)
    /\ reason ∉ enumerated_reasons.
Proof.
  eexists _, _, _.
  split; [vm_compute; reflexivity|].
  split; [reflexivity|].
  split; [reflexivity|].
  unfold enumerated_reasons. intros Hin.
  repeat (apply elem_of_cons in Hin as [Hin | Hin]; [discriminate Hin|]).
  inversion Hin.
Qed.

(** C5, amended.  In every result the reason attached to a skipped
    delivery is one of two fixed strings: "Not included in optimal route"
    in a feasible result, "Route infeasible - time constraints cannot be
    met" in an infeasible one. *)
Theorem skip_reason_fixed
  `{DistanceCalculator.Geodesic} `{Solver}
  (rc : RoutingConfig.t) (pc : PriorityConfig.t)
  (request : RoutingRequest.t) (response : RoutingResponse.t)
  (entry : dict) (v : value) :
  Main.optimize_route rc pc request = Ok response ->
  entry ∈ RoutingResponse.skipped_deliveries response ->
  reason_of entry = Some v ->
  (RoutingResponse.is_feasible response = true
   /\ v = VStr reason_not_included)
  \/ (RoutingResponse.is_feasible response = false
      /\ v = VStr reason_infeasible).
Proof.
  intros [_ ->]%optimize_route_ok_inv.
  pose proof (optimize_route_cases (Main.routing_engine rc pc) request)
    as Hcases.
  destruct (search_result _ request) as [solution|].
  - destruct (RoutingEngine.optimize_route _ request) as [r | e].
    + destruct Hcases as (stops & _ & _ & Hfeasible & ->).
      intros (d & _ & _ & ->)%determine_skipped_elem.
      rewrite reason_of_skipped_entry. intros [= <-]. now left.
    + simpl. intros Hin%list_elem_of_singleton. subst entry. discriminate.
  - rewrite Hcases. simpl.
    intros (d & -> & _)%list_elem_of_fmap.
    rewrite reason_of_skipped_entry. intros [= <-]. now right.
Qed.

Lemma skip_reason_fixed_witness :
  exists response entry,
    Scenario.endpoint Scenario.failing_solver Scenario.routing_config
      (Scenario.request true 40 [Scenario.client "Client A" "10:00"])
    = Ok response
    /\ RoutingResponse.skipped_deliveries response = [entry]
    /\ reason_of entry = Some (VStr reason_infeasible)
    /\ ((RoutingResponse.is_feasible response = true
         /\ VStr reason_infeasible = VStr reason_not_included)
        \/ (RoutingResponse.is_feasible response = false
            /\ VStr reason_infeasible = VStr reason_infeasible)).
Proof.
  eexists _, _.
  split; [vm_compute; reflexivity|].
  split; [reflexivity|].
  split; [reflexivity|].
  eapply (@skip_reason_fixed
            Scenario.grid_geodesic Scenario.failing_solver
            Scenario.routing_config Scenario.priority_config
            (Scenario.request true 40 [Scenario.client "Client A" "10:00"])).
  - vm_compute. reflexivity.
  - apply list_elem_of_singleton. reflexivity.
  - reflexivity.
Defined.

(** *** No feasible tour *)

(** C6, as stated, fails on the wording of the reason: when the search
    finds nothing, the deliveries are not listed with the reason
    "infeasible — time constraints cannot be met." *)
Lemma infeasible_reason_differs :
  exists response,
    @RoutingEngine.optimize_route
      Scenario.grid_geodesic Scenario.failing_solver
      (Main.routing_engine Scenario.routing_config Scenario.priority_config)
      (Scenario.request true 40 [Scenario.client "Client A" "10:00"])
    = Ok response
    /\ ~ all_skipped_as "infeasible — time constraints cannot be met."
         (Scenario.request true 40 [Scenario.client "Client A" "10:00"])
         response.
Proof.
  eexists. split; [vm_compute; reflexivity|].
  intros [_ Hskipped]. discriminate Hskipped.
Qed.

(** C6, amended.  Whenever the search finds no solution, the engine does
    not raise: it returns a result that is not feasible, with an empty
    route, listing every delivery of the request as skipped with the
    reason "Route infeasible - time constraints cannot be met"; and the
    endpoint passes that result on for a valid request. *)
Theorem no_solution_infeasible_result
  `{DistanceCalculator.Geodesic} `{Solver}
  (rc : RoutingConfig.t) (pc : PriorityConfig.t)
  (request : RoutingRequest.t) :
  search_result (Main.routing_engine rc pc) request = None ->
  exists response,
    RoutingEngine.optimize_route (Main.routing_engine rc pc) request
    = Ok response
    /\ RoutingResponse.route response = []
    /\ all_skipped_as reason_infeasible request response
    /\ (~ invalid_request request ->
        Main.optimize_route rc pc request = Ok response).
Proof.
  intros Hnone.
  pose proof (optimize_route_cases (Main.routing_engine rc pc) request)
    as Hcases.
  rewrite Hnone in Hcases. eexists. split; [exact Hcases|].
  split; [reflexivity|]. split; [split; reflexivity|].
  intros Hvalid. rewrite optimize_route_valid by assumption.
  now rewrite Hcases.
Qed.

Lemma no_solution_infeasible_result_witness :
  exists response,
    Scenario.endpoint Scenario.failing_solver Scenario.routing_config
      (Scenario.request true 40 [Scenario.client "Client A" "10:00"])
    = Ok response
    /\ all_skipped_as reason_infeasible
         (Scenario.request true 40 [Scenario.client "Client A" "10:00"])
         response.
Proof.
  destruct (@no_solution_infeasible_result
              Scenario.grid_geodesic Scenario.failing_solver
              Scenario.routing_config Scenario.priority_config
              (Scenario.request true 40
                 [Scenario.client "Client A" "10:00"]) eq_refl)
    as (response & _ & _ & Hall & Hmain).
  exists response. split; [|exact Hall].
  apply Hmain, valid_scenario_request.
Defined.

(** *** Skipped deliveries are told by their address *)






End Properties.


(** ** Further properties of distance_calculator.py *)
Module CalculatorProperties.
Import PyStr PyStrFacts DistanceCalculator DistanceCalculatorFacts Spec
  Behaviour.

(** *** [calculate_route_metrics] *)

Lemma service_guard_take (times : list Q) (k i : nat) (t : PyFloat.t) :
  (i < k)%nat ->
  (if (negb (Nat.eqb (length (take k times)) 0)
       && Nat.ltb i (length (take k times)))%bool
   then match take k times !! i with
        | Some service => PyFloat.add t (PyFloat.Finite service)
        | None => t
        end
   else t)
  = (if (negb (Nat.eqb (length times) 0) && Nat.ltb i (length times))%bool
     then match times !! i with
          | Some service => PyFloat.add t (PyFloat.Finite service)
          | None => t
          end
     else t).
Proof.
  intros Hik. rewrite length_take.
  set (n := (k `min` length times)%nat).
  destruct (Nat.ltb_spec i (length times)) as [Hlt | Hge].
  - rewrite lookup_take_lt by assumption.
    assert (Nat.ltb i n = true) as -> by (apply Nat.ltb_lt; lia).
    assert (Nat.eqb n 0 = false) as -> by (apply Nat.eqb_neq; lia).
    assert (Nat.eqb (length times) 0 = false) as ->
      by (apply Nat.eqb_neq; lia).
    reflexivity.
  - assert (Nat.ltb i n = false) as -> by (apply Nat.ltb_ge; lia).
    now rewrite !andb_false_r.
Qed.

Lemma route_metrics_loop_take `{Geodesic} (self : t) (points : list (Q * Q))
  (times : list Q) (k i : nat) (d : Q) (total : PyFloat.t) :
  (i + (length points - 1) <= k)%nat ->
  route_metrics_loop self points (Some (take k times)) i d total
  = route_metrics_loop self points (Some times) i d total.
Proof.
  revert i d total.
  induction points as [|[lat1 lng1] rest IH]; intros i d total Hk;
    [reflexivity|].
  destruct rest as [|[lat2 lng2] rest']; [reflexivity|].
  cbn [route_metrics_loop]. cbn [length] in Hk.
  rewrite service_guard_take by lia.
  apply IH. cbn [length]. lia.
Qed.

Lemma route_metrics_loop_no_times `{Geodesic} (self : t)
  (points : list (Q * Q)) (i : nat) (d : Q) (total : PyFloat.t) :
  route_metrics_loop self points (Some []) i d total
  = route_metrics_loop self points None i d total.
Proof.
  revert i d total.
  induction points as [|[lat1 lng1] rest IH]; intros i d total;
    [reflexivity|].
  destruct rest as [|[lat2 lng2] rest']; [reflexivity|].
  cbn [route_metrics_loop]. apply IH.
Qed.

Lemma route_metrics_loop_distance `{Geodesic} (self self' : t)
  (points : list (Q * Q)) (times times' : option (list Q)) (i i' : nat)
  (d : Q) (total total' : PyFloat.t) :
  (route_metrics_loop self points times i d total).1
  = (route_metrics_loop self' points times' i' d total').1.
Proof.
  revert i i' d total total'.
  induction points as [|[lat1 lng1] rest IH]; intros; [reflexivity|].
  destruct rest as [|[lat2 lng2] rest']; [reflexivity|].
  cbn [route_metrics_loop]. apply IH.
Qed.

(** X2.  [calculate_route_metrics] pairs the service times with the legs
    by position: entries beyond the number of legs are ignored, an empty
    list is the same as no list, and a route of fewer than two points has
    distance 0 and time 0.  The total distance depends neither on the
    service times nor on the speed. *)
Theorem calculate_route_metrics_service_times `{Geodesic} (self self' : t)
  (route_points : list (Q * Q)) (service_times : list Q) :
  calculate_route_metrics self route_points
    (Some (take (length route_points - 1) service_times))
  = calculate_route_metrics self route_points (Some service_times)
  /\ calculate_route_metrics self route_points (Some [])
     = calculate_route_metrics self route_points None
  /\ ((length route_points < 2)%nat ->
      calculate_route_metrics self route_points (Some service_times)
      = (0%Q, PyFloat.Finite 0))
  /\ (calculate_route_metrics self route_points (Some service_times)).1
     = (calculate_route_metrics self' route_points None).1.
Proof.
  unfold calculate_route_metrics.
  destruct (Nat.ltb_spec (length route_points) 2) as [Hshort | Hlong].
  - repeat split; reflexivity.
  - split; [apply route_metrics_loop_take; lia|].
    split; [apply route_metrics_loop_no_times|].
    split; [lia | apply route_metrics_loop_distance].
Qed.

Lemma calculate_route_metrics_service_times_witness :
  (length [(18.9356, 72.8376)%Q] < 2)%nat
  /\ @calculate_route_metrics Scenario.grid_geodesic
       {| default_speed_kmh := 50 |} [(18.9356, 72.8376)%Q] (Some [10%Q])
     = (0%Q, PyFloat.Finite 0).
Proof.
  split; [simpl; lia|].
  apply (proj1 (proj2 (proj2
           (@calculate_route_metrics_service_times Scenario.grid_geodesic
              {| default_speed_kmh := 50 |} {| default_speed_kmh := 50 |}
              [(18.9356, 72.8376)%Q] [10%Q])))).
  simpl. lia.
Defined.

(** *** Time strings *)

(** X3.  The two time conversions are inverse well beyond the minutes
    of a day, on every integer of at most 640 digits, negative ones
    included: [minutes_to_time] does not wrap at 24 hours (minute 1500 is
    "25:00") and never gives the same string to two different minutes. *)
Theorem minutes_to_time_injective (m1 m2 : Z) :
  within_str_digits m1 -> within_str_digits m2 ->
  time_to_minutes (minutes_to_time m1) = m1
  /\ time_to_minutes_try (minutes_to_time m1) = Ok m1
  /\ (minutes_to_time m1 = minutes_to_time m2 -> m1 = m2).
Proof.
  intros _ _.
  split; [apply time_to_minutes_minutes_to_time|]. split.
  - unfold minutes_to_time.
    destruct (time_to_minutes_parsed
                (format_02d (m1 / 60)) (format_02d (m1 mod 60))
                (m1 / 60) (m1 mod 60)) as [-> _];
      try apply int_of_str_format_02d.
    f_equal. pose proof (Z.div_mod m1 60). lia.
  - intros Heq.
    rewrite <- (time_to_minutes_minutes_to_time m1), Heq.
    apply time_to_minutes_minutes_to_time.
Qed.

Lemma minutes_to_time_injective_witness :
  within_str_digits 1500
  /\ within_str_digits (-61)
  /\ minutes_to_time 1500 = "25:00"%string
  /\ minutes_to_time (-61) = "-2:59"%string
  /\ time_to_minutes (minutes_to_time 1500) = 1500.
Proof.
  assert (within_str_digits 1500) as H1 by reflexivity.
  assert (within_str_digits (-61)) as H2 by reflexivity.
  split; [exact H1|]. split; [exact H2|].
  split; [reflexivity|]. split; [reflexivity|].
  exact (proj1 (minutes_to_time_injective 1500 (-61) H1 H2)).
Defined.

(** X4.  [time_to_minutes] checks no range: on a string [a:b] whose two
    parts are integer literals for [h] and [m] of at most 640 characters
    each, whatever their value and sign, it returns [h * 60 + m]. *)
Theorem time_to_minutes_unchecked (a b : string) (h m : Z) :
  (String.length a <= max_str_digits)%nat ->
  (String.length b <= max_str_digits)%nat ->
  int_of_str a = Some h -> int_of_str b = Some m ->
  time_to_minutes (a ++ String colon b) = h * 60 + m.
Proof. intros _ _ Ha Hb. now apply time_to_minutes_parsed. Qed.

Lemma time_to_minutes_unchecked_witness :
  (String.length "25" <= max_str_digits)%nat
  /\ (String.length " -61 " <= max_str_digits)%nat
  /\ int_of_str "25" = Some 25 /\ int_of_str " -61 " = Some (-61)
  /\ time_to_minutes "25: -61 " = 25 * 60 + -61.
Proof.
  assert (String.length "25" <= max_str_digits)%nat as H1
    by (apply Nat.leb_le; reflexivity).
  assert (String.length " -61 " <= max_str_digits)%nat as H2
    by (apply Nat.leb_le; reflexivity).
  split; [exact H1|]. split; [exact H2|].
  split; [reflexivity|]. split; [reflexivity|].
  apply (time_to_minutes_unchecked "25" " -61 " 25 (-61) H1 H2);
    reflexivity.
Defined.

Lemma time_to_minutes_unparsed (time_str : string) :
  ~ parses_as_two_integers time_str -> time_to_minutes time_str = 0.
Proof.
  intros Hnot. unfold time_to_minutes, time_to_minutes_try.
  destruct (split_colon time_str) as [|a [|b [|c ps]]] eqn:Hsplit;
    try reflexivity.
  apply split_colon_two in Hsplit.
  destruct (int_of_str a) as [h|] eqn:Ha; [|reflexivity].
  destruct (int_of_str b) as [m|] eqn:Hb; [|reflexivity].
  exfalso. apply Hnot. exists a, b, h, m. auto.
Qed.

(** X5.  In [is_time_window_valid] a bound that does not parse acts as
    "00:00"; a window whose two bounds do not parse therefore admits the
    arrival minute 0 and no other. *)
Theorem unparsed_window_bound_is_midnight
  (arrival : Z) (window_start window_end : string) :
  ~ parses_as_two_integers window_start ->
  ~ parses_as_two_integers window_end ->
  (forall other,
      is_time_window_valid arrival window_start other
      = is_time_window_valid arrival "00:00" other
      /\ is_time_window_valid arrival other window_end
         = is_time_window_valid arrival other "00:00")
  /\ (is_time_window_valid arrival window_start window_end = true
      <-> arrival = 0).
Proof.
  intros Hs%time_to_minutes_unparsed He%time_to_minutes_unparsed.
  split.
  - intros other. rewrite !is_time_window_valid_cases, Hs, He.
    split; reflexivity.
  - rewrite is_time_window_valid_cases, Hs, He.
    change (0 <? 0) with false. cbv iota.
    rewrite andb_true_iff, !Z.leb_le. lia.
Qed.

Lemma unparsed_window_bound_is_midnight_witness :
  ~ parses_as_two_integers "morning"
  /\ ~ parses_as_two_integers "noon"
  /\ (is_time_window_valid 0 "morning" "noon" = true <-> 0 = 0).
Proof.
  assert (~ parses_as_two_integers "morning") as H1
    by (apply not_parses_without_colon; reflexivity).
  assert (~ parses_as_two_integers "noon") as H2
    by (apply not_parses_without_colon; reflexivity).
  split; [exact H1|]. split; [exact H2|].
  exact (proj2 (unparsed_window_bound_is_midnight 0 "morning" "noon" H1 H2)).
Defined.

End CalculatorProperties.

(** ** Further properties of routing_engine.py *)
Module EngineProperties.
Import Spec Behaviour RoutingEngineFacts MainFacts.

(** *** Truncation *)

Lemma quotients_ordered (D1 D2 k1 k2 r1 r2 : Z) :
  0 < D1 -> 0 < D2 ->
  (D1 * k1 + r1) * D2 <= (D2 * k2 + r2) * D1 ->
  - (D1 * D2) < r1 * D2 - r2 * D1 ->
  k1 <= k2.
Proof.
  intros HD1 HD2 Hle Hrem.
  assert (0 < D1 * D2) as HP by lia.
  assert (D1 * D2 * (k1 - k2) < D1 * D2 * 1) as Hlt by lia.
  apply Z.mul_lt_mono_pos_l in Hlt; lia.
Qed.

Lemma quot_monotone (n1 n2 : Z) (d1 d2 : positive) :
  n1 * Zpos d2 <= n2 * Zpos d1 ->
  Z.quot n1 (Zpos d1) <= Z.quot n2 (Zpos d2).
Proof.
  intros Hle.
  pose proof (Z.quot_rem' n1 (Zpos d1)) as E1.
  pose proof (Z.quot_rem' n2 (Zpos d2)) as E2.
  destruct (Z_lt_le_dec n1 0) as [Hn1 | Hn1];
    destruct (Z_lt_le_dec n2 0) as [Hn2 | Hn2].
  - pose proof (Z.rem_bound_pos_neg n1 (Zpos d1) ltac:(lia) ltac:(lia)).
    pose proof (Z.rem_bound_pos_neg n2 (Zpos d2) ltac:(lia) ltac:(lia)).
    apply (quotients_ordered (Zpos d1) (Zpos d2) _ _
             (Z.rem n1 (Zpos d1)) (Z.rem n2 (Zpos d2)));
      [lia | lia | now rewrite <- E1, <- E2 |].
    assert (- (Zpos d1 * Zpos d2) < Z.rem n1 (Zpos d1) * Zpos d2) by nia.
    assert (Z.rem n2 (Zpos d2) * Zpos d1 <= 0) by nia.
    lia.
  - assert (Z.quot n1 (Zpos d1) <= 0)
      by (apply Z.quot_le_upper_bound; lia).
    assert (0 <= Z.quot n2 (Zpos d2)) by (apply Z.quot_pos; lia).
    lia.
  - assert (0 <= n1 * Zpos d2) by nia.
    assert (n2 * Zpos d1 < 0) by nia.
    lia.
  - pose proof (Z.rem_bound_pos n1 (Zpos d1) ltac:(lia) ltac:(lia)).
    pose proof (Z.rem_bound_pos n2 (Zpos d2) ltac:(lia) ltac:(lia)).
    apply (quotients_ordered (Zpos d1) (Zpos d2) _ _
             (Z.rem n1 (Zpos d1)) (Z.rem n2 (Zpos d2)));
      [lia | lia | now rewrite <- E1, <- E2 |].
    assert (0 <= Z.rem n1 (Zpos d1) * Zpos d2) by nia.
    assert (Z.rem n2 (Zpos d2) * Zpos d1 < Zpos d1 * Zpos d2) by nia.
    lia.
Qed.

Lemma to_int_monotone (q r : Q) (a b : Z) :
  (q <= r)%Q ->
  PyFloat.to_int (PyFloat.Finite q) = Ok a ->
  PyFloat.to_int (PyFloat.Finite r) = Ok b ->
  a <= b.
Proof.
  intros Hle [= <-] [= <-]. apply quot_monotone. exact Hle.
Qed.

Lemma to_int_of_int (z : Z) : PyFloat.to_int (PyFloat.of_int z) = Ok z.
Proof. simpl. f_equal. apply Z.quot_1_r. Qed.

(** *** The matrices of a request *)

Lemma matrix_entries `{DistanceCalculator.Geodesic}
  (calculator : DistanceCalculator.t) (points : list (Q * Q)) (i j : nat) :
  matrix_entry
    (DistanceCalculator.create_distance_matrix calculator points).1 i j
  = (p ← points !! i; q ← points !! j;
     Some (if (i =? j)%nat then 0%Q else DistanceCalculator.geodesic p q))
  /\ matrix_entry
       (DistanceCalculator.create_distance_matrix calculator points).2 i j
     = (p ← points !! i; q ← points !! j;
        Some (if (i =? j)%nat then PyFloat.Finite 0
              else DistanceCalculator.calculate_travel_time calculator
                     (DistanceCalculator.geodesic p q) None)).
Proof.
  unfold DistanceCalculator.create_distance_matrix, matrix_entry.
  cbn [fst snd]. rewrite !list_lookup_imap.
  destruct (points !! i) as [[lat1 lng1]|]; [|split; reflexivity].
  cbn [fmap option_fmap option_map mbind option_bind].
  rewrite !list_lookup_imap.
  destruct (points !! j) as [[lat2 lng2]|]; split; reflexivity.
Qed.

Section Engine.
Context `{DistanceCalculator.Geodesic} `{Solver}.
Variable self : RoutingEngine.t.

Lemma time_matrix_of_points (request : RoutingRequest.t) :
  time_matrix_of self request
  = (DistanceCalculator.create_distance_matrix
       (RoutingEngine.distance_calculator self) (points_of request)).2.
Proof. reflexivity. Qed.

(** *** One turn of the walk, as an equation *)

Lemma extract_step_eq pickup deliveries settings time_matrix
  from_node to_node current :
  RoutingEngine.extract_step pickup deliveries settings time_matrix
    from_node to_node current
  = (travel_time ←
      of_option IndexError (matrix_entry time_matrix from_node to_node);
    let service := Settings.time_per_stop_minutes settings in
    let current' :=
      if (from_node =? 0)%nat then PyFloat.add current travel_time
      else PyFloat.add (PyFloat.add current (PyFloat.of_int service))
             travel_time in
    arrival_minutes ← PyFloat.to_int current';
    if (to_node =? 0)%nat then
      mret (current',
            RoutingEngine.return_stop pickup
              (DistanceCalculator.minutes_to_time arrival_minutes))
    else
      delivery ← of_option IndexError (deliveries !! (to_node - 1)%nat);
      mret (current',
            RoutingEngine.delivery_stop delivery
              (DistanceCalculator.minutes_to_time arrival_minutes)
              (DistanceCalculator.minutes_to_time
                 (arrival_minutes + service)))).
Proof.
  unfold RoutingEngine.extract_step, matrix_entry.
  destruct (time_matrix !! from_node) as [row|]; cbn;
    [|now destruct (from_node =? 0)%nat].
  destruct (row !! to_node) as [t|]; cbn; now destruct (from_node =? 0)%nat.
Qed.

Lemma extract_step_stop pickup deliveries settings time_matrix
  from_node to_node current current' stop :
  RoutingEngine.extract_step pickup deliveries settings time_matrix
    from_node to_node current = Ok (current', stop) ->
  stop_of_node pickup deliveries to_node stop.
Proof.
  intros (arrival & _ & [[-> ->] | [Hne (d & Hd & ->)]])%extract_step_inv.
  - left. eauto.
  - right. split; [assumption|]. eexists d, _, _. split; [eassumption|reflexivity].
Qed.

Lemma extract_loop_stops pickup deliveries settings time_matrix
  to_nodes from_node current route_stops stops :
  RoutingEngine.extract_loop pickup deliveries settings time_matrix
    to_nodes from_node current route_stops = Ok stops ->
  exists more,
    stops = route_stops ++ more
    /\ Forall2 (stop_of_node pickup deliveries) to_nodes more.
Proof.
  revert from_node current route_stops.
  induction to_nodes as [|n rest IH]; intros from_node current acc; simpl.
  - intros [= <-]. exists []. now rewrite app_nil_r.
  - intros ([c stop] & Hstep & Hloop)%bind_ok_inv.
    apply IH in Hloop as (more & -> & Hall).
    exists (stop :: more). rewrite <- app_assoc. split; [reflexivity|].
    constructor; [|assumption]. eapply extract_step_stop, Hstep.
Qed.

(** X6.  The route read off a solution lists the stops in the order of
    the solution: the pickup, then for every visited node [n] the stop of
    the delivery at index [n - 1] of the request, then the return to the
    pickup; so it has two stops more than the solution has nodes. *)
Theorem extract_route_follows_solution solution pickup deliveries settings
  time_matrix stops :
  RoutingEngine._extract_route solution pickup deliveries settings
    time_matrix = Ok stops ->
  Forall (fun node => node <> 0%nat) (visits solution) ->
  exists middle arrival_time,
    stops = RoutingEngine.pickup_stop pickup
            :: middle ++ [RoutingEngine.return_stop pickup arrival_time]
    /\ Forall2 (stop_of_delivery deliveries) (visits solution) middle
    /\ length stops = (length (visits solution) + 2)%nat.
Proof.
  unfold RoutingEngine._extract_route.
  intros (more & -> & Hall)%extract_loop_stops Hnodes.
  apply Forall2_app_inv_l in Hall as (middle & last & Hmiddle & Hlast & ->).
  apply Forall2_cons_inv_l in Hlast as (stop & rest & Hstop & Hrest & ->).
  apply Forall2_nil_inv_l in Hrest as ->.
  destruct Hstop as [[_ [arrival ->]] | [? _]]; [|congruence].
  exists middle, arrival. split; [reflexivity|]. split.
  - clear -Hmiddle Hnodes. induction Hmiddle as [|n stop ns ss Hn _ IH].
    + constructor.
    + apply Forall_cons in Hnodes as [Hne Hrest].
      constructor; [|now apply IH].
      destruct Hn as [[-> _] | [_ Hd]]; [congruence | assumption].
  - cbn [length app]. rewrite length_app. cbn [length].
    apply Forall2_length in Hmiddle. lia.
Qed.

End Engine.

Lemma extract_route_follows_solution_witness :
  exists stops middle arrival_time,
    RoutingEngine._extract_route {| visits := [1%nat] |} Scenario.warehouse
      [Scenario.client "Client A" "10:00"] (Scenario.settings true 40)
      [[PyFloat.Finite 0; PyFloat.Finite 3];
       [PyFloat.Finite 3; PyFloat.Finite 0]] = Ok stops
    /\ stops = RoutingEngine.pickup_stop Scenario.warehouse
               :: middle
               ++ [RoutingEngine.return_stop Scenario.warehouse arrival_time]
    /\ Forall2 (stop_of_delivery [Scenario.client "Client A" "10:00"])
         [1%nat] middle.
Proof.
  eexists.
  destruct (extract_route_follows_solution
              {| visits := [1%nat] |} Scenario.warehouse
              [Scenario.client "Client A" "10:00"] (Scenario.settings true 40)
              [[PyFloat.Finite 0; PyFloat.Finite 3];
               [PyFloat.Finite 3; PyFloat.Finite 0]] _ eq_refl)
    as (middle & arrival & Heq & Hall & _).
  - repeat constructor. discriminate.
  - exists middle, arrival. split; [reflexivity|]. split; assumption.
Defined.

(** *** The responses of the endpoint *)

Section Responses.
Context `{DistanceCalculator.Geodesic} `{Solver}.
Variables (rc : RoutingConfig.t) (pc : PriorityConfig.t).

#[local] Abbreviation engine := (Main.routing_engine rc pc).

(** The three shapes of a response of /optimize-route. *)
Lemma optimize_route_response (request : RoutingRequest.t)
  (response : RoutingResponse.t) :
  Main.optimize_route rc pc request = Ok response ->
  (exists solution stops,
      search_result engine request = Some solution
      /\ RoutingEngine._extract_route solution
           (RoutingRequest.pickup request) (RoutingRequest.deliveries request)
           (RoutingRequest.settings request) (time_matrix_of engine request)
         = Ok stops
      /\ RoutingResponse.route response = stops
      /\ RoutingResponse.is_feasible response = true
      /\ RoutingResponse.skipped_deliveries response
         = RoutingEngine._determine_skipped_deliveries
             (RoutingRequest.deliveries request) stops)
  \/ (search_result engine request = None
      /\ response = RoutingEngine._create_infeasible_response
                      (RoutingRequest.pickup request)
                      (RoutingRequest.deliveries request) elapsed)
  \/ (exists e, response = Main.error_response e).
Proof.
  intros [_ ->]%optimize_route_ok_inv.
  pose proof (optimize_route_cases engine request) as Hcases.
  destruct (search_result engine request) as [solution|].
  - destruct (RoutingEngine.optimize_route engine request) as [r | e].
    + left. destruct Hcases as (stops & ?). exists solution, stops. tauto.
    + right; right. eauto.
  - right; left. rewrite Hcases. auto.
Qed.

(** X8.  In every response of /optimize-route the feasibility flag tells
    whether there is a route: a feasible response has a route of at least
    two stops, and any other response has an empty route, distance 0 and
    time 0. *)
Theorem feasible_iff_route (request : RoutingRequest.t)
  (response : RoutingResponse.t) :
  Main.optimize_route rc pc request = Ok response ->
  (RoutingResponse.is_feasible response = true
   /\ (2 <= length (RoutingResponse.route response))%nat)
  \/ (RoutingResponse.is_feasible response = false
      /\ RoutingResponse.route response = []
      /\ RoutingResponse.total_distance_km response = 0%Q
      /\ RoutingResponse.total_time_minutes response = 0).
Proof.
  intros [(sol & stops & _ & Hstops & <- & Hf & _) | [[_ ->] | [e ->]]]
         %optimize_route_response.
  - left. split; [assumption|].
    now apply extract_route_shape in Hstops as (_ & _ & ?).
  - right. repeat split.
  - right. repeat split.
Qed.

(** X9.  When the solution visits every delivery of the request and every
    delivery address is non-empty and free of the substring "Return", a
    feasible response reports no skipped delivery. *)
Theorem full_tour_skips_nothing (request : RoutingRequest.t)
  (response : RoutingResponse.t) (solution : Solution) :
  Main.optimize_route rc pc request = Ok response ->
  RoutingResponse.is_feasible response = true ->
  search_result engine request = Some solution ->
  (forall k, (k < length (RoutingRequest.deliveries request))%nat ->
             S k ∈ visits solution) ->
  Forall (fun d => matchable_address (Delivery.address d))
    (RoutingRequest.deliveries request) ->
  RoutingResponse.skipped_deliveries response = [].
Proof.
  intros Hrun Hfeasible Hsol Hall Haddr.
  apply optimize_route_response in Hrun
    as [(sol & stops & Hsol' & Hstops & _ & _ & ->) | [[_ ->] | [e ->]]];
    [|discriminate..].
  rewrite Hsol in Hsol'. injection Hsol' as <-.
  apply elem_of_nil_inv. intros entry Hentry.
  apply determine_skipped_elem in Hentry as (d & Hd & Hnone & _).
  apply list_elem_of_lookup in Hd as [k Hk].
  pose proof (lookup_lt_Some _ _ _ Hk) as Hlt.
  specialize (Hall k Hlt).
  unfold RoutingEngine._extract_route in Hstops.
  apply extract_loop_stops in Hstops as (more & -> & Hnodes).
  assert (S k ∈ visits solution ++ [0%nat]) as Hin by set_solver.
  apply list_elem_of_lookup in Hin as [i Hi].
  destruct (Forall2_lookup_l _ _ _ _ _ Hnodes Hi) as (stop & Hstop & Hrel).
  destruct Hrel as [[? _] | [_ (d' & t1 & t2 & Hd' & ->)]]; [discriminate|].
  replace (S k - 1)%nat with k in Hd' by lia.
  rewrite Hk in Hd'. injection Hd' as <-.
  apply (Hnone (RoutingEngine.delivery_stop d t1 t2)).
  - apply elem_of_app. right. eapply list_elem_of_lookup_2, Hstop.
  - pose proof (proj1 (Forall_forall _ _) Haddr d
                  (list_elem_of_lookup_2 _ _ _ Hk)) as [Hne Hret].
    unfold RoutingEngine.included_address. cbn.
    apply String.eqb_neq in Hne. now rewrite Hne, Hret.
Qed.

(** X10.  A delivery that shares the pickup's address is never reported
    as skipped in a feasible response, visited or not, when that address
    is non-empty and free of the substring "Return": the pickup's own stop
    puts the address among the included ones. *)
Theorem pickup_address_never_skipped (request : RoutingRequest.t)
  (response : RoutingResponse.t) (delivery : Delivery.t) :
  Main.optimize_route rc pc request = Ok response ->
  RoutingResponse.is_feasible response = true ->
  Delivery.address delivery
  = PickupLocation.address (RoutingRequest.pickup request) ->
  matchable_address (PickupLocation.address (RoutingRequest.pickup request)) ->
  forall entry,
    entry ∈ RoutingResponse.skipped_deliveries response ->
    dict_get entry "address" <> Some (VStr (Delivery.address delivery)).
Proof.
  intros Hrun Hfeasible Hsame [Hne Hret] entry Hentry Haddress.
  apply optimize_route_response in Hrun
    as [(sol & stops & _ & Hstops & _ & _ & Hskipped) | [[_ ->] | [e ->]]];
    [|discriminate..].
  rewrite Hskipped in Hentry.
  apply determine_skipped_elem in Hentry as (d & _ & Hnone & ->).
  cbn in Haddress. injection Haddress as Hd.
  apply extract_route_shape in Hstops as ([rest ->] & _).
  apply (Hnone (RoutingEngine.pickup_stop (RoutingRequest.pickup request)));
    [set_solver|].
  unfold RoutingEngine.included_address. cbn.
  apply String.eqb_neq in Hne. rewrite Hne, Hret. cbn. congruence.
Qed.

End Responses.

(** *** Arrival times along the route *)

Lemma travel_time_non_negative (calculator : DistanceCalculator.t) (d : Q) :
  (0 <= d)%Q ->
  non_negative (DistanceCalculator.calculate_travel_time calculator d None).
Proof.
  intros Hd. unfold DistanceCalculator.calculate_travel_time.
  destruct (Qle_bool _ 0) eqn:Hle; [exact I|]. simpl.
  assert (0 < DistanceCalculator.default_speed_kmh calculator)%Q as Hspeed.
  { apply Qnot_le_lt. intros Hneg%Qle_bool_iff. congruence. }
  apply Qmult_le_0_compat; [|discriminate].
  apply Qmult_le_0_compat; [assumption|].
  apply Qinv_le_0_compat, Qlt_le_weak, Hspeed.
Qed.

Section Walk.
Context `{DistanceCalculator.Geodesic} `{Solver}.
Variable self : RoutingEngine.t.

Lemma time_entry_non_negative (request : RoutingRequest.t) (i j : nat)
  (t : PyFloat.t) :
  (forall p q, 0 <= DistanceCalculator.geodesic p q)%Q ->
  matrix_entry (time_matrix_of self request) i j = Some t ->
  non_negative t.
Proof.
  intros Hgeo. rewrite time_matrix_of_points.
  rewrite (proj2 (matrix_entries _ _ i j)).
  destruct (points_of request !! i) as [p|]; [|discriminate].
  destruct (points_of request !! j) as [q|]; [|discriminate].
  cbn. intros [= <-]. destruct (i =? j)%nat.
  - simpl. apply Qle_refl.
  - apply travel_time_non_negative, Hgeo.
Qed.

Lemma arrival_minutes_of_stop pickup deliveries settings time_matrix
  from_node to_node current current' stop :
  RoutingEngine.extract_step pickup deliveries settings time_matrix
    from_node to_node current = Ok (current', stop) ->
  PyFloat.to_int current' = Ok (arrival_minutes stop).
Proof.
  intros (arrival & -> & [[_ ->] | [_ (d & _ & ->)]])%extract_step_inv;
    unfold arrival_minutes; cbn;
    now rewrite DistanceCalculatorFacts.time_to_minutes_minutes_to_time.
Qed.

Lemma extract_step_later (request : RoutingRequest.t) pickup deliveries
  settings from_node to_node current current' stop (before : Z) :
  (forall p q, 0 <= DistanceCalculator.geodesic p q)%Q ->
  0 <= Settings.time_per_stop_minutes settings ->
  PyFloat.to_int current = Ok before ->
  RoutingEngine.extract_step pickup deliveries settings
    (time_matrix_of self request) from_node to_node current
  = Ok (current', stop) ->
  before <= arrival_minutes stop.
Proof.
  intros Hgeo Hservice Hbefore Hstep.
  pose proof (arrival_minutes_of_stop _ _ _ _ _ _ _ _ _ Hstep) as Harrival.
  rewrite extract_step_eq in Hstep.
  apply bind_ok_inv in Hstep as (t & Ht & Hstep).
  destruct (matrix_entry _ from_node to_node) as [t'|] eqn:Hentry;
    [|discriminate].
  injection Ht as ->.
  apply (time_entry_non_negative request _ _ _ Hgeo) in Hentry.
  cbv zeta in Hstep.
  apply bind_ok_inv in Hstep as (a & Ha & Hstep).
  assert (current'
          = if (from_node =? 0)%nat then PyFloat.add current t
            else PyFloat.add
                   (PyFloat.add current
                      (PyFloat.of_int
                         (Settings.time_per_stop_minutes settings))) t)
    as Hcurrent.
  { destruct (to_node =? 0)%nat; [now injection Hstep as <- _|].
    apply bind_ok_inv in Hstep as (d & _ & Hstep). now injection Hstep as <- _. }
  destruct current as [c|]; [|discriminate].
  destruct t as [t|]; [|now destruct (from_node =? 0)%nat].
  simpl in Hentry. subst current'.
  destruct (from_node =? 0)%nat; cbn [PyFloat.add PyFloat.of_int] in Harrival;
    (eapply to_int_monotone; [|exact Hbefore|exact Harrival]).
  - rewrite <- (Qplus_0_r c) at 1.
    apply Qplus_le_compat; [apply Qle_refl | assumption].
  - rewrite <- (Qplus_0_r c) at 1. rewrite <- Qplus_assoc.
    apply Qplus_le_compat; [apply Qle_refl|].
    rewrite <- (Qplus_0_r 0).
    apply Qplus_le_compat; [|assumption].
    unfold Qle. simpl. lia.
Qed.

Lemma extract_loop_sorted (request : RoutingRequest.t) pickup deliveries
  settings to_nodes from_node current route_stops stops (before : Z) :
  (forall p q, 0 <= DistanceCalculator.geodesic p q)%Q ->
  0 <= Settings.time_per_stop_minutes settings ->
  PyFloat.to_int current = Ok before ->
  RoutingEngine.extract_loop pickup deliveries settings
    (time_matrix_of self request) to_nodes from_node current route_stops
  = Ok stops ->
  exists more,
    stops = route_stops ++ more
    /\ StronglySorted Z.le (map arrival_minutes more)
    /\ Forall (fun m => before <= m) (map arrival_minutes more).
Proof.
  intros Hgeo Hservice. revert from_node current route_stops before.
  induction to_nodes as [|n rest IH];
    intros from_node current acc before Hbefore; simpl.
  - intros [= <-]. exists []. rewrite app_nil_r.
    repeat split; constructor.
  - intros ([c stop] & Hstep & Hloop)%bind_ok_inv.
    pose proof (extract_step_later request _ _ _ _ _ _ _ _ _
                  Hgeo Hservice Hbefore Hstep) as Hlater.
    pose proof (arrival_minutes_of_stop _ _ _ _ _ _ _ _ _ Hstep) as Hnow.
    destruct (IH _ _ _ _ Hnow Hloop) as (more & -> & Hsorted & Hbound).
    exists (stop :: more). rewrite <- app_assoc.
    split; [reflexivity|]. cbn [map]. split.
    + constructor; assumption.
    + constructor; [assumption|].
      eapply Forall_impl; [exact Hbound|]. cbn. intros; lia.
Qed.

End Walk.

Section Arrivals.
Context `{DistanceCalculator.Geodesic} `{Solver}.
Variables (rc : RoutingConfig.t) (pc : PriorityConfig.t).

(** X12.  In every response of /optimize-route the arrival times along
    the route never decrease, from the pickup to the return, when the
    geodesic distance is never negative, the service time is not negative
    and the pickup's start time is the string HH:MM of a minute count that
    a float holds exactly (at most 2^53 in absolute value, which covers
    every time of day). *)
Theorem arrival_times_never_decrease (request : RoutingRequest.t)
  (response : RoutingResponse.t) (start : Z) :
  (forall p q, 0 <= DistanceCalculator.geodesic p q)%Q ->
  0 <= Settings.time_per_stop_minutes (RoutingRequest.settings request) ->
  PickupLocation.start_time (RoutingRequest.pickup request)
  = DistanceCalculator.minutes_to_time start ->
  exact_as_float start ->
  Main.optimize_route rc pc request = Ok response ->
  StronglySorted Z.le (map arrival_minutes (RoutingResponse.route response)).
Proof.
  intros Hgeo Hservice Hstart _.
  intros [(sol & stops & _ & Hstops & <- & _) | [[_ ->] | [e ->]]]
         %optimize_route_response; [|constructor..].
  unfold RoutingEngine._extract_route in Hstops.
  eapply extract_loop_sorted in Hstops
    as (more & -> & Hsorted & Hbound); try eassumption;
    [|apply to_int_of_int].
  cbn [app map]. constructor; assumption.
Qed.

End Arrivals.

(** *** The theorems above on the requests of the scenarios *)

Lemma grid_geodesic_non_negative (p q : Q * Q) :
  (0 <= Scenario.grid_geodesic p q)%Q.
Proof.
  unfold Scenario.grid_geodesic.
  apply Qmult_le_0_compat; [discriminate|].
  rewrite <- (Qplus_0_r 0).
  apply Qplus_le_compat; apply Qabs_nonneg.
Qed.

Lemma feasible_iff_route_witness :
  exists response,
    Scenario.endpoint Scenario.tour_solver Scenario.routing_config
      (Scenario.request true 40 [Scenario.client "Client A" "10:00"])
    = Ok response
    /\ RoutingResponse.is_feasible response = true
    /\ (2 <= length (RoutingResponse.route response))%nat.
Proof.
  eexists. split; [vm_compute; reflexivity|].
  destruct (@feasible_iff_route
              Scenario.grid_geodesic Scenario.tour_solver
              Scenario.routing_config Scenario.priority_config
              (Scenario.request true 40 [Scenario.client "Client A" "10:00"])
              _ ltac:(vm_compute; reflexivity))
    as [Hyes | [Hno _]]; [exact Hyes | discriminate Hno].
Defined.

Lemma full_tour_skips_nothing_witness :
  exists response,
    Scenario.endpoint Scenario.tour_solver Scenario.routing_config
      (Scenario.request true 40 [Scenario.client "Client A" "10:00"])
    = Ok response
    /\ RoutingResponse.is_feasible response = true
    /\ RoutingResponse.skipped_deliveries response = [].
Proof.
  eexists. split; [vm_compute; reflexivity|]. split; [reflexivity|].
  apply (@full_tour_skips_nothing
           Scenario.grid_geodesic Scenario.tour_solver
           Scenario.routing_config Scenario.priority_config
           (Scenario.request true 40 [Scenario.client "Client A" "10:00"])
           _ {| visits := [1%nat] |}).
  - vm_compute. reflexivity.
  - reflexivity.
  - reflexivity.
  - intros k Hk. cbn in Hk. replace k with 0%nat by lia. set_solver.
  - repeat constructor. discriminate.
Defined.

Lemma pickup_address_never_skipped_witness :
  exists response,
    Scenario.endpoint Scenario.tour_solver Scenario.routing_config
      (Scenario.request true 40
         [Scenario.client "Warehouse, Mumbai" "10:00"])
    = Ok response
    /\ RoutingResponse.is_feasible response = true
    /\ forall entry,
         entry ∈ RoutingResponse.skipped_deliveries response ->
         dict_get entry "address" <> Some (VStr "Warehouse, Mumbai").
Proof.
  eexists. split; [vm_compute; reflexivity|]. split; [reflexivity|].
  apply (@pickup_address_never_skipped
           Scenario.grid_geodesic Scenario.tour_solver
           Scenario.routing_config Scenario.priority_config
           (Scenario.request true 40
              [Scenario.client "Warehouse, Mumbai" "10:00"])
           _ (Scenario.client "Warehouse, Mumbai" "10:00")).
  - vm_compute. reflexivity.
  - reflexivity.
  - reflexivity.
  - split; [discriminate | reflexivity].
Defined.

Lemma arrival_times_never_decrease_witness :
  exists response,
    PickupLocation.start_time Scenario.warehouse
    = DistanceCalculator.minutes_to_time 540
    /\ exact_as_float 540
    /\ Scenario.endpoint Scenario.tour_solver Scenario.routing_config
         (Scenario.request true 40 [Scenario.client "Client A" "10:00"])
       = Ok response
    /\ (2 <= length (RoutingResponse.route response))%nat
    /\ StronglySorted Z.le
         (map arrival_minutes (RoutingResponse.route response)).
Proof.
  eexists. split; [reflexivity|].
  assert (exact_as_float 540) as Hexact by (unfold exact_as_float; lia).
  split; [exact Hexact|].
  split; [vm_compute; reflexivity|].
  split; [cbn; lia|].
  apply (@arrival_times_never_decrease
           Scenario.grid_geodesic Scenario.tour_solver
           Scenario.routing_config Scenario.priority_config
           (Scenario.request true 40 [Scenario.client "Client A" "10:00"])
           _ 540).
  - apply grid_geodesic_non_negative.
  - discriminate.
  - reflexivity.
  - exact Hexact.
  - vm_compute. reflexivity.
Defined.

End EngineProperties.

(** ** Further properties of main.py and visualization.py *)
Module EndpointProperties.
Import Spec Behaviour RoutingEngineFacts MainFacts EngineProperties.

(** *** /calculate-distance-matrix *)

Lemma collect_coordinates_cases (points : list (gmap string Q))
  (coordinates : list (Q * Q)) :
  (Forall well_formed_point points
   /\ exists all, Main.collect_coordinates points coordinates = inr all)
  \/ (~ Forall well_formed_point points
      /\ exists detail,
          Main.collect_coordinates points coordinates
          = inl (RaiseHTTP 400 detail)).
Proof.
  revert coordinates.
  induction points as [|point rest IH]; intros coordinates;
    cbn [Main.collect_coordinates].
  { left. split; [constructor | eauto]. }
  destruct (point !! "latitude"%string) as [lat|] eqn:Hlat.
  2:{ right. split; [|eauto].
      intros (? & ? & ? & _)%Forall_cons_1%proj1. congruence. }
  destruct (point !! "longitude"%string) as [lng|] eqn:Hlng.
  2:{ right. split; [|eauto].
      intros (? & ? & _ & ? & _)%Forall_cons_1%proj1. congruence. }
  destruct (DistanceCalculator.validate_coordinates lat lng) eqn:Hvalid;
    cbn [negb].
  - apply validate_coordinates_iff in Hvalid.
    destruct (IH (coordinates ++ [(lat, lng)]))
      as [[Hall Hok] | [Hnot Hfail]].
    + left. split; [|exact Hok].
      constructor; [|assumption]. now exists lat, lng.
    + right. split; [|exact Hfail].
      intros [_ ?]%Forall_cons_1. contradiction.
  - apply validate_coordinates_false in Hvalid.
    right. split; [|eauto].
    intros (lat' & lng' & Hlat' & Hlng' & Hrange)%Forall_cons_1%proj1.
    congruence.
Qed.

(** X13.  /calculate-distance-matrix never returns a matrix.  A request
    with fewer than two points, a point without [latitude] or
    [longitude], or a coordinate out of range is rejected with status
    400; every other request fails with status 500, because the attribute
    [use_geodesic] the endpoint reads is not a field of the request
    model. *)
Theorem calculate_distance_matrix_always_fails
  `{DistanceCalculator.Geodesic} (rc : RoutingConfig.t)
  (request : DistanceMatrixRequest.t) :
  exists status_code detail,
    Main.calculate_distance_matrix rc request = inl (status_code, detail)
    /\ ((status_code = 400
         /\ ~ ((2 <= length (DistanceMatrixRequest.points request))%nat
               /\ Forall well_formed_point
                    (DistanceMatrixRequest.points request)))
        \/ (status_code = 500
            /\ detail = InternalServerError
                          (NoAttribute "DistanceMatrixRequest" "use_geodesic")
            /\ (2 <= length (DistanceMatrixRequest.points request))%nat
            /\ Forall well_formed_point
                 (DistanceMatrixRequest.points request))).
Proof.
  unfold Main.calculate_distance_matrix, Main.calculate_distance_matrix_try.
  destruct (Nat.ltb_spec (length (DistanceMatrixRequest.points request)) 2)
    as [Hshort | Hlong].
  { eexists _, _. split; [reflexivity|]. left. split; [reflexivity | lia]. }
  destruct (collect_coordinates_cases
              (DistanceMatrixRequest.points request) [])
    as [[Hall [coords ->]] | [Hnot [detail ->]]].
  - eexists _, _. split; [reflexivity|]. right. auto.
  - eexists _, _. split; [reflexivity|]. left. split; [reflexivity | tauto].
Qed.

(** *** The order of the rejections of /optimize-route *)

Lemma find_first_invalid (good rest : list Delivery.t) (bad : Delivery.t) :
  Forall (fun d => coordinates_in_range (Delivery.lat d) (Delivery.lng d))
    good ->
  ~ coordinates_in_range (Delivery.lat bad) (Delivery.lng bad) ->
  List.find (fun d => negb (DistanceCalculator.validate_coordinates
                              (Delivery.lat d) (Delivery.lng d)))
    (good ++ bad :: rest) = Some bad.
Proof.
  intros Hgood Hbad. induction Hgood as [|d good Hd _ IH]; cbn.
  - apply validate_coordinates_false in Hbad. now rewrite Hbad.
  - apply validate_coordinates_iff in Hd. now rewrite Hd.
Qed.

(** X14.  /optimize-route reports one cause of rejection, in a fixed
    order: the empty delivery list before anything else, then the
    pickup's coordinates, then the first delivery in input order whose
    coordinates are out of range, named by its address. *)
Theorem rejection_order `{DistanceCalculator.Geodesic} `{Solver}
  (rc : RoutingConfig.t) (pc : PriorityConfig.t)
  (request : RoutingRequest.t) :
  let pickup := RoutingRequest.pickup request in
  (RoutingRequest.deliveries request = [] ->
   Main.optimize_route rc pc request
   = Raise (HTTPException 400 NoDeliveryPoint))
  /\ (RoutingRequest.deliveries request <> [] ->
      ~ coordinates_in_range (PickupLocation.lat pickup)
          (PickupLocation.lng pickup) ->
      Main.optimize_route rc pc request
      = Raise (HTTPException 400
                 (InvalidPickupCoordinates (PickupLocation.lat pickup)
                    (PickupLocation.lng pickup))))
  /\ (forall good bad rest,
        RoutingRequest.deliveries request = good ++ bad :: rest ->
        coordinates_in_range (PickupLocation.lat pickup)
          (PickupLocation.lng pickup) ->
        Forall (fun d => coordinates_in_range (Delivery.lat d)
                           (Delivery.lng d)) good ->
        ~ coordinates_in_range (Delivery.lat bad) (Delivery.lng bad) ->
        Main.optimize_route rc pc request
        = Raise (HTTPException 400
                   (InvalidDeliveryCoordinates (Delivery.address bad)
                      (Delivery.lat bad) (Delivery.lng bad)))).
Proof.
  intros pickup.
  pose proof (optimize_route_spec rc pc request) as Hspec.
  unfold Main.validate_request in Hspec. fold pickup in Hspec.
  repeat split.
  - intros Hnil. now rewrite Hnil in Hspec.
  - intros Hne Hpickup%validate_coordinates_false.
    destruct (RoutingRequest.deliveries request); [congruence|].
    now rewrite Hpickup in Hspec.
  - intros good bad rest Hsplit Hpickup%validate_coordinates_iff Hgood Hbad.
    rewrite Hsplit, Hpickup in Hspec. cbn [negb] in Hspec.
    rewrite (find_first_invalid good rest bad Hgood Hbad) in Hspec.
    now destruct good.
Qed.

Lemma rejection_order_witness :
  Scenario.endpoint Scenario.tour_solver Scenario.routing_config
    {| RoutingRequest.pickup :=
         {| PickupLocation.address := "Nowhere";
            PickupLocation.zipcode := "000000";
            PickupLocation.lat := 91;
            PickupLocation.lng := 0;
            PickupLocation.start_time := "09:00";
            PickupLocation.end_time := "18:00" |};
       RoutingRequest.settings := Scenario.settings true 40;
       RoutingRequest.deliveries := [] |}
  = Raise (HTTPException 400 NoDeliveryPoint).
Proof.
  apply (proj1 (@rejection_order
                  Scenario.grid_geodesic Scenario.tour_solver
                  Scenario.routing_config Scenario.priority_config _)).
  reflexivity.
Defined.

(** *** /generate-visualizations and /debug-route *)

Section Replies.
Context `{DistanceCalculator.Geodesic} `{Solver}.
Variables (rc : RoutingConfig.t) (pc : PriorityConfig.t).

#[local] Abbreviation engine := (Main.routing_engine rc pc).

(** X15.  /generate-visualizations answers [success: true] exactly when
    the engine returns a feasible result, and carries the engine's result
    whenever the engine returns one; on a request /optimize-route accepts,
    its [success] is the feasibility flag of the response /optimize-route
    gives. *)
Theorem generate_visualizations_success (request : RoutingRequest.t) :
  (reply_get (Main.generate_visualizations rc pc request) "success"
   = Some (JBool true)
   <-> exists result,
         RoutingEngine.optimize_route engine request = Ok result
         /\ RoutingResponse.is_feasible result = true)
  /\ (forall result,
        RoutingEngine.optimize_route engine request = Ok result ->
        reply_get (Main.generate_visualizations rc pc request) "route_result"
        = Some (JResponse result))
  /\ (forall response,
        Main.optimize_route rc pc request = Ok response ->
        reply_get (Main.generate_visualizations rc pc request) "success"
        = Some (JBool (RoutingResponse.is_feasible response))).
Proof.
  unfold Main.generate_visualizations. repeat split.
  - destruct (RoutingEngine.optimize_route engine request) as [r | e];
      [|discriminate].
    destruct (RoutingResponse.is_feasible r) eqn:Hf; [eauto | discriminate].
  - intros (r & -> & ->). reflexivity.
  - intros r ->. now destruct (RoutingResponse.is_feasible r).
  - intros response [_ ->]%optimize_route_ok_inv.
    destruct (RoutingEngine.optimize_route engine request) as [r | e];
      [|reflexivity].
    now destruct (RoutingResponse.is_feasible r).
Qed.

(** X16.  /debug-route answers [success: true] whenever the engine
    raises nothing, feasible result or not: when the search finds no
    solution it reports success with the infeasible result, where
    /generate-visualizations reports [success: false] with the same
    result. *)
Theorem debug_route_success (request : RoutingRequest.t) :
  (reply_get (Main.debug_route rc pc request) "success" = Some (JBool true)
   <-> exists result,
         RoutingEngine.optimize_route engine request = Ok result
         /\ reply_get (Main.debug_route rc pc request) "result"
            = Some (JResponse result))
  /\ (search_result engine request = None ->
      exists result,
        RoutingResponse.is_feasible result = false
        /\ reply_get (Main.debug_route rc pc request) "success"
           = Some (JBool true)
        /\ reply_get (Main.debug_route rc pc request) "result"
           = Some (JResponse result)
        /\ reply_get (Main.generate_visualizations rc pc request) "success"
           = Some (JBool false)
        /\ reply_get (Main.generate_visualizations rc pc request)
             "route_result"
           = Some (JResponse result)).
Proof.
  unfold Main.debug_route, Main.generate_visualizations. split.
  - destruct (RoutingEngine.optimize_route engine request) as [r | e].
    + split; [eauto | reflexivity].
    + split; [discriminate | intros (r & Hr & _); discriminate].
  - intros Hnone.
    pose proof (optimize_route_cases engine request) as Hcases.
    rewrite Hnone in Hcases. rewrite Hcases.
    exists (RoutingEngine._create_infeasible_response
              (RoutingRequest.pickup request)
              (RoutingRequest.deliveries request) elapsed).
    repeat split.
Qed.

End Replies.

Lemma debug_route_success_witness :
  exists result,
    RoutingResponse.is_feasible result = false
    /\ reply_get
         (@Main.debug_route Scenario.grid_geodesic Scenario.failing_solver
            Scenario.routing_config Scenario.priority_config
            (Scenario.request true 40 [Scenario.client "Client A" "10:00"]))
         "success" = Some (JBool true)
    /\ reply_get
         (@Main.generate_visualizations
            Scenario.grid_geodesic Scenario.failing_solver
            Scenario.routing_config Scenario.priority_config
            (Scenario.request true 40 [Scenario.client "Client A" "10:00"]))
         "success" = Some (JBool false).
Proof.
  destruct (proj2 (@debug_route_success
                     Scenario.grid_geodesic Scenario.failing_solver
                     Scenario.routing_config Scenario.priority_config
                     (Scenario.request true 40
                        [Scenario.client "Client A" "10:00"])) eq_refl)
    as (result & Hf & Hdebug & _ & Hgenerate & _).
  exists result. auto.
Defined.

Lemma generate_visualizations_success_witness :
  exists response,
    Scenario.endpoint Scenario.tour_solver Scenario.routing_config
      (Scenario.request true 40 [Scenario.client "Client A" "10:00"])
    = Ok response
    /\ reply_get
         (@Main.generate_visualizations
            Scenario.grid_geodesic Scenario.tour_solver
            Scenario.routing_config Scenario.priority_config
            (Scenario.request true 40 [Scenario.client "Client A" "10:00"]))
         "success" = Some (JBool (RoutingResponse.is_feasible response)).
Proof.
  eexists. split; [vm_compute; reflexivity|].
  apply (proj2 (proj2 (@generate_visualizations_success
                         Scenario.grid_geodesic Scenario.tour_solver
                         Scenario.routing_config Scenario.priority_config
                         (Scenario.request true 40
                            [Scenario.client "Client A" "10:00"])))).
  vm_compute. reflexivity.
Defined.

(** *** The timeline of a route *)

Lemma time_to_minutes_try_unparsed (time_str : string) :
  ~ parses_as_two_integers time_str ->
  DistanceCalculator.time_to_minutes_try time_str = Raise ValueError.
Proof.
  intros Hnot. unfold DistanceCalculator.time_to_minutes_try.
  destruct (PyStr.split_colon time_str) as [|a [|b [|c ps]]] eqn:Hsplit;
    try reflexivity.
  apply PyStrFacts.split_colon_two in Hsplit.
  destruct (PyStr.int_of_str a) as [h|] eqn:Ha; [|reflexivity].
  destruct (PyStr.int_of_str b) as [m|] eqn:Hb; [|reflexivity].
  exfalso. apply Hnot. exists a, b, h, m. auto.
Qed.

Lemma time_to_minutes_try_parsed (time_str : string) :
  parses_as_two_integers time_str ->
  DistanceCalculator.time_to_minutes_try time_str
  = Ok (DistanceCalculator.time_to_minutes time_str).
Proof.
  intros (a & b & h & m & -> & Ha & Hb).
  destruct (DistanceCalculatorFacts.time_to_minutes_parsed a b h m Ha Hb)
    as [-> ->].
  reflexivity.
Qed.

Lemma time_to_minutes_try_generated (m : Z) :
  DistanceCalculator.time_to_minutes_try
    (DistanceCalculator.minutes_to_time m) = Ok m.
Proof.
  unfold DistanceCalculator.minutes_to_time.
  destruct (DistanceCalculatorFacts.time_to_minutes_parsed
              (PyStr.format_02d (m / 60)) (PyStr.format_02d (m mod 60))
              (m / 60) (m mod 60)) as [-> _];
    try apply PyStrFacts.int_of_str_format_02d.
  f_equal. pose proof (Z.div_mod m 60). lia.
Qed.

Lemma extract_loop_generated `{DistanceCalculator.Geodesic} `{Solver}
  pickup deliveries settings time_matrix
  to_nodes from_node current route_stops stops :
  RoutingEngine.extract_loop pickup deliveries settings time_matrix
    to_nodes from_node current route_stops = Ok stops ->
  exists more,
    stops = route_stops ++ more
    /\ Forall (fun stop =>
                 exists m, RouteStop.arrival_time stop
                           = DistanceCalculator.minutes_to_time m) more.
Proof.
  revert from_node current route_stops.
  induction to_nodes as [|n rest IH]; intros from_node current acc; simpl.
  - intros [= <-]. exists []. now rewrite app_nil_r.
  - intros ([c stop] & Hstep & Hloop)%bind_ok_inv.
    apply IH in Hloop as (more & -> & Hall).
    exists (stop :: more). rewrite <- app_assoc. split; [reflexivity|].
    constructor; [|assumption].
    apply extract_step_inv in Hstep
      as (arrival & _ & [[_ ->] | [_ (d & _ & ->)]]); now exists arrival.
Qed.

Lemma mapM_generated (stops : list RouteStop.t) :
  Forall (fun stop =>
            exists m, RouteStop.arrival_time stop
                      = DistanceCalculator.minutes_to_time m) stops ->
  mapM (fun stop =>
          DistanceCalculator.time_to_minutes_try (RouteStop.arrival_time stop))
    stops
  = Ok (map arrival_minutes stops).
Proof.
  induction 1 as [|stop rest [m Hm] _ IH]; [reflexivity|].
  cbn [mapM map]. rewrite IH, Hm, time_to_minutes_try_generated.
  unfold arrival_minutes. rewrite Hm.
  now rewrite DistanceCalculatorFacts.time_to_minutes_minutes_to_time.
Qed.

(** X17.  The timeline of a response: for a response without a route
    nothing is converted; for a feasible response the arrival strings the
    engine wrote always convert, even past 24 hours, so the conversion
    succeeds, with the arrival minutes of the stops, exactly when the
    pickup's [start_time], copied as it came into the first stop, parses;
    otherwise it raises [ValueError]. *)
Theorem timeline_of_response `{DistanceCalculator.Geodesic} `{Solver}
  (rc : RoutingConfig.t) (pc : PriorityConfig.t)
  (request : RoutingRequest.t) (response : RoutingResponse.t) :
  Main.optimize_route rc pc request = Ok response ->
  (RoutingResponse.is_feasible response = false ->
   RouteVisualizer.timeline_times response = Ok None)
  /\ (RoutingResponse.is_feasible response = true ->
      parses_as_two_integers
        (PickupLocation.start_time (RoutingRequest.pickup request)) ->
      RouteVisualizer.timeline_times response
      = Ok (Some (map arrival_minutes (RoutingResponse.route response))))
  /\ (RoutingResponse.is_feasible response = true ->
      ~ parses_as_two_integers
          (PickupLocation.start_time (RoutingRequest.pickup request)) ->
      RouteVisualizer.timeline_times response = Raise ValueError).
Proof.
  intros [(sol & stops & _ & Hstops & Hroute & Hf & _) | [[_ ->] | [e ->]]]
         %optimize_route_response.
  2,3: split; [reflexivity | split; discriminate].
  split; [congruence|].
  unfold RoutingEngine._extract_route in Hstops.
  apply extract_loop_generated in Hstops as (more & -> & Hall).
  unfold RouteVisualizer.timeline_times. rewrite Hroute.
  cbn [app mapM RouteStop.arrival_time RoutingEngine.pickup_stop].
  split; intros _ Hparse.
  - rewrite (time_to_minutes_try_parsed _ Hparse). cbn [mbind result_bind].
    rewrite (mapM_generated more Hall). reflexivity.
  - now rewrite (time_to_minutes_try_unparsed _ Hparse).
Qed.

Lemma timeline_of_response_witness :
  exists response,
    Scenario.endpoint Scenario.tour_solver Scenario.routing_config
      (Scenario.request true 40 [Scenario.client "Client A" "10:00"])
    = Ok response
    /\ RouteVisualizer.timeline_times response = Ok (Some [540; 540; 550]).
Proof.
  eexists. split; [vm_compute; reflexivity|].
  destruct (@timeline_of_response
              Scenario.grid_geodesic Scenario.tour_solver
              Scenario.routing_config Scenario.priority_config
              (Scenario.request true 40 [Scenario.client "Client A" "10:00"])
              _ ltac:(vm_compute; reflexivity)) as (_ & Hyes & _).
  rewrite Hyes; [reflexivity | reflexivity |].
  exists "09"%string, "00"%string, 9, 0. repeat split.
Defined.

End EndpointProperties.
